(** * Shallow embedding of the TilingWindowManager IPC example clients

    Sources embedded (src/examples/ipc/python):
    - [window_monitor.py]  : [monitor_windows]   (streaming session)
    - [auto_tiler.py]      : [auto_tile]         (streaming session)
    - [window_info.py]     : [get_active_window] (command path)
    - [workspace_status.py]: [get_workspaces]    (command path)

    Python text is modelled as byte strings (UTF-8) over [Stdlib.Strings.String];
    [json.loads], [str.strip] and the encoding [print] does on [sys.stdout] are
    embedded concretely below so that every statement can be evaluated on
    literal input lines. The interpreter settings they depend on are a
    parameter of the model ([runtime]). *)

From Stdlib Require Import String Ascii ZArith List Bool Lia.
Import ListNotations.
Open Scope string_scope.
Open Scope list_scope.
#[local] Set Warnings "-register-all".

(** ** Python values produced by [json.loads]

    JSON [null] is Python [None]; an object is a Python [dict], kept as an
    association list with unique keys in insertion order (see [dict_set]). *)
Inductive json : Type :=
| JNull
| JBool (b : bool)
| JInt (n : Z)
| JFloat (m : Z) (e : Z)      (* decimal literal m * 10^e, read by float() *)
| JSpecial (lit : string)      (* NaN, Infinity, -Infinity *)
| JStr (s : string)
| JArr (l : list json)
| JObj (kvs : list (string * json)).

(** [dict.get(k)] on the key list *)
Fixpoint dict_lookup (k : string) (kvs : list (string * json)) : option json :=
  match kvs with
  | [] => None
  | (k', v) :: r => if String.eqb k k' then Some v else dict_lookup k r
  end.

(** [d[k] = v]: replace in place when present, append otherwise *)
Fixpoint dict_set (k : string) (v : json) (kvs : list (string * json))
  : list (string * json) :=
  match kvs with
  | [] => [(k, v)]
  | (k', v') :: r => if String.eqb k k' then (k', v) :: r else (k', v') :: dict_set k v r
  end.

(** [obj.get(k, default)]: [None] stands for the [AttributeError] raised when
    [obj] is not a [dict]. *)
Definition py_get (obj : json) (k : string) (default : json) : option json :=
  match obj with
  | JObj kvs =>
      match dict_lookup k kvs with
      | Some v => Some v
      | None => Some default
      end
  | _ => None
  end.

(** [v == 'lit'] for a [str] literal: only an equal [str] compares equal. *)
Definition is_str (v : json) (lit : string) : bool :=
  match v with
  | JStr s => String.eqb s lit
  | _ => false
  end.

(** Python truthiness [bool(v)]. A float is false exactly when the decimal
    literal rounds to 0.0 (|x| <= 2^-1075 under round-half-even). *)
Definition float_is_zero (m e : Z) : bool :=
  (m =? 0)%Z || ((e <? 0)%Z && (Z.abs m * 2 ^ 1075 <=? 10 ^ (- e))%Z).

Definition py_truthy (v : json) : bool :=
  match v with
  | JNull => false
  | JBool b => b
  | JInt n => negb (Z.eqb n 0)
  | JFloat m e => negb (float_is_zero m e)
  | JSpecial _ => true
  | JStr s => negb (String.eqb s "")
  | JArr l => match l with [] => false | _ => true end
  | JObj kvs => match kvs with [] => false | _ => true end
  end.

(** [iter(v)] as a [for] loop sees it; [None] is the [TypeError] of a
    non-iterable. Iterating a [str] yields its characters (each a [str]). *)
Definition py_iter (v : json) : option (list json) :=
  match v with
  | JArr l => Some l
  | JObj kvs => Some (map (fun kv => JStr (fst kv)) kvs)
  | JStr s => Some (map (fun c => JStr (String c EmptyString)) (list_ascii_of_string s))
  | _ => None
  end.

(** ** The interpreter

    The settings of the running interpreter that decide what [json.loads] and
    [print] raise; the scripts change none of them.
    - [max_depth]: how many arrays and objects, one inside the other,
      [json.loads] enters before it raises [RecursionError] (its C scanner
      calls [Py_EnterRecursiveCall] on each '[' and '{'). It depends on the
      recursion limit and on the stack depth of the call: 994 in these
      scripts under CPython 3.11 with the default limit of 1000 (a line of
      995 '[' raises, one of 994 does not). At least 100 is assumed.
    - [int_max_str_digits]: [sys.get_int_max_str_digits()] (4300 by default
      since 3.11); [json.loads] raises [ValueError] on an integer literal
      with more digits. 0 means no limit, which is also the behaviour before
      3.11; CPython refuses the values 1..639.
    - [stdout_errors]: the error handler of [sys.stdout], a UTF-8 stream:
      'strict' (a UTF-8 locale, or PYTHONIOENCODING=utf-8) or
      'surrogateescape' (the C or POSIX locale). Other stdout encodings are
      not modelled. [sys.stderr] uses 'backslashreplace', so a [print] to it
      never raises. *)
Inductive errors_mode : Type := Strict | SurrogateEscape.

Record runtime : Type := {
  max_depth : nat;
  int_max_str_digits : nat;
  stdout_errors : errors_mode;
  max_depth_floor : (100 <= max_depth)%nat;
  int_max_str_digits_floor : int_max_str_digits = 0 \/ (640 <= int_max_str_digits)%nat
}.

(** CPython 3.11 with its default settings, in a UTF-8 locale *)
Definition cpython311 : runtime := {|
  max_depth := 994;
  int_max_str_digits := 4300;
  stdout_errors := Strict;
  max_depth_floor := proj1 (Nat.leb_le 100 994) eq_refl;
  int_max_str_digits_floor := or_intror (proj1 (Nat.leb_le 640 4300) eq_refl) |}.

(** whether [s] survives [sys.stdout]'s encoder. A lone surrogate
    U+D800..U+DFFF (from a [\uXXXX] escape that [json.loads] cannot pair) is
    held in its three-byte form ED A0..BF xx; 'strict' refuses every one,
    'surrogateescape' accepts U+DC80..U+DCFF (second byte B2 or B3). *)
Fixpoint stdout_encodes (m : errors_mode) (s : string) : bool :=
  match s with
  | EmptyString => true
  | String a r =>
      if Nat.eqb (nat_of_ascii a) 237 then
        match r with
        | String b _ =>
            if Nat.leb 160 (nat_of_ascii b) then
              match m with
              | Strict => false
              | SurrogateEscape =>
                  (Nat.eqb (nat_of_ascii b) 178 || Nat.eqb (nat_of_ascii b) 179)
                  && stdout_encodes m r
              end
            else stdout_encodes m r
        | EmptyString => stdout_encodes m r
        end
      else stdout_encodes m r
  end.

(** [print(f'...{v}...')] to [sys.stdout] writes [str(v)]: the text of a
    [str], or else a repr, which escapes surrogates ([\ud800]) in ASCII. The
    fixed text of every [print] is valid UTF-8. *)
Definition py_str_encodes (env : runtime) (v : json) : bool :=
  match v with
  | JStr s => stdout_encodes (stdout_errors env) s
  | _ => true
  end.


(** ** [str.strip()]

    The characters for which Python's [str.isspace] holds, as UTF-8 byte
    sequences: ASCII 9-13 and 28-32, then U+0085, U+00A0, U+1680,
    U+2000..U+200A, U+2028, U+2029, U+202F, U+205F, U+3000. *)
Definition py_space_seqs : list (list nat) :=
  [[9]; [10]; [11]; [12]; [13]; [28]; [29]; [30]; [31]; [32];
   [194; 133]; [194; 160]; [225; 154; 128];
   [226; 128; 128]; [226; 128; 129]; [226; 128; 130]; [226; 128; 131];
   [226; 128; 132]; [226; 128; 133]; [226; 128; 134]; [226; 128; 135];
   [226; 128; 136]; [226; 128; 137]; [226; 128; 138];
   [226; 128; 168]; [226; 128; 169]; [226; 128; 175]; [226; 129; 159];
   [227; 128; 128]].

Fixpoint strip_seq (p : list nat) (s : list ascii) : option (list ascii) :=
  match p, s with
  | [], _ => Some s
  | n :: p', c :: s' => if Nat.eqb n (nat_of_ascii c) then strip_seq p' s' else None
  | _ :: _, [] => None
  end.

Fixpoint first_space (seqs : list (list nat)) (s : list ascii) : option (list ascii) :=
  match seqs with
  | [] => None
  | p :: ps => match strip_seq p s with Some r => Some r | None => first_space ps s end
  end.

Fixpoint lstrip_bytes (fuel : nat) (seqs : list (list nat)) (s : list ascii) : list ascii :=
  match fuel with
  | O => s
  | S f => match first_space seqs s with Some r => lstrip_bytes f seqs r | None => s end
  end.

Definition py_strip (s : string) : string :=
  let l := list_ascii_of_string s in
  let l1 := lstrip_bytes (length l) py_space_seqs l in
  let l2 := lstrip_bytes (length l1) (map (@rev nat) py_space_seqs) (rev l1) in
  string_of_list_ascii (rev l2).


(** ** [json.loads]

    The grammar of CPython's [json] scanner: whitespace is space, tab, LF, CR;
    numbers follow [-?(0|[1-9]\d* )(\.\d+)?([eE][-+]?\d+)?]; [NaN], [Infinity]
    and [-Infinity] are accepted; strings reject raw control characters and
    decode [\uXXXX] escapes (joining surrogate pairs) to UTF-8; duplicate
    object keys keep the last value. Besides [JSONDecodeError] it raises
    [RecursionError] past [max_depth] nested arrays and objects, and
    [ValueError] on an integer literal longer than [int_max_str_digits]. *)
Definition quote : ascii := ascii_of_nat 34.

Definition is_json_ws (c : ascii) : bool :=
  let n := nat_of_ascii c in
  (Nat.eqb n 32) || (Nat.eqb n 9) || (Nat.eqb n 10) || (Nat.eqb n 13).

Fixpoint skip_ws (s : string) : string :=
  match s with
  | String c r => if is_json_ws c then skip_ws r else s
  | EmptyString => s
  end.

Definition is_digit (c : ascii) : bool :=
  Nat.leb 48 (nat_of_ascii c) && Nat.leb (nat_of_ascii c) 57.

Fixpoint span_digits (s : string) : list ascii * string :=
  match s with
  | String c r =>
      if is_digit c then let (ds, r') := span_digits r in (c :: ds, r') else ([], s)
  | EmptyString => ([], s)
  end.

Definition digits_val (ds : list ascii) : Z :=
  fold_left (fun acc c => acc * 10 + Z.of_nat (nat_of_ascii c) - 48)%Z ds 0%Z.

Definition parse_int_part (s : string) : option (list ascii * string) :=
  match s with
  | String c r =>
      if Ascii.eqb c "0"%char then Some ([c], r)
      else if is_digit c then let (ds, r') := span_digits r in Some (c :: ds, r')
      else None
  | EmptyString => None
  end.

Definition parse_frac (s : string) : list ascii * string :=
  match s with
  | String c r =>
      if Ascii.eqb c "."%char then
        match span_digits r with
        | ([], _) => ([], s)
        | (ds, r') => (ds, r')
        end
      else ([], s)
  | EmptyString => ([], s)
  end.

Definition parse_exp (s : string) : option Z * string :=
  match s with
  | String c r =>
      if Ascii.eqb c "e"%char || Ascii.eqb c "E"%char then
        let '(sgn, r1) :=
          match r with
          | String d r' =>
              if Ascii.eqb d "-"%char then ((-1)%Z, r')
              else if Ascii.eqb d "+"%char then (1%Z, r') else (1%Z, r)
          | EmptyString => (1%Z, r)
          end in
        match span_digits r1 with
        | ([], _) => (None, s)
        | (ds, r2) => (Some (sgn * digits_val ds)%Z, r2)
        end
      else (None, s)
  | EmptyString => (None, s)
  end.

(** what the scanner returns for a value: the value and the text after it,
    [StopIteration] (reported as [JSONDecodeError]), or another exception *)
Inductive scanned : Type :=
| Scanned (v : json) (rest : string)
| ScanDecodeError
| ScanRaised.

(** [int(digits)] raises [ValueError] past the limit; [float()] has none *)
Definition int_digits_ok (env : runtime) (n : nat) : bool :=
  match int_max_str_digits env with
  | O => true
  | limit => Nat.leb n limit
  end.

Definition parse_number (env : runtime) (s : string) : scanned :=
  let '(neg, s1) :=
    match s with
    | String c r => if Ascii.eqb c "-"%char then (true, r) else (false, s)
    | EmptyString => (false, s)
    end in
  let sign := if neg then (-1)%Z else 1%Z in
  match parse_int_part s1 with
  | None => ScanDecodeError
  | Some (ids, s2) =>
      let '(fds, s3) := parse_frac s2 in
      let '(ex, s4) := parse_exp s3 in
      match fds, ex with
      | [], None =>
          if int_digits_ok env (length ids) then Scanned (JInt (sign * digits_val ids)%Z) s4
          else ScanRaised
      | _, _ =>
          let e := match ex with Some e => e | None => 0%Z end in
          Scanned (JFloat (sign * digits_val (ids ++ fds))%Z
                          (e - Z.of_nat (length fds))%Z) s4
      end
  end.

Fixpoint drop_prefix (p s : string) : option string :=
  match p, s with
  | EmptyString, _ => Some s
  | String a p', String b s' => if Ascii.eqb a b then drop_prefix p' s' else None
  | String _ _, EmptyString => None
  end.

(** [null], [true], [false], [NaN], [Infinity], [-Infinity], tried before
    numbers as the scanner does *)
Definition parse_literal (s : string) : option (json * string) :=
  match drop_prefix "null" s with Some r => Some (JNull, r) | None =>
  match drop_prefix "true" s with Some r => Some (JBool true, r) | None =>
  match drop_prefix "false" s with Some r => Some (JBool false, r) | None =>
  match drop_prefix "NaN" s with Some r => Some (JSpecial "NaN", r) | None =>
  match drop_prefix "Infinity" s with Some r => Some (JSpecial "Infinity", r) | None =>
  match drop_prefix "-Infinity" s with Some r => Some (JSpecial "-Infinity", r) | None =>
    None
  end end end end end end.

Definition hex_val (c : ascii) : option Z :=
  let n := Z.of_nat (nat_of_ascii c) in
  if (48 <=? n)%Z && (n <=? 57)%Z then Some (n - 48)%Z
  else if (97 <=? n)%Z && (n <=? 102)%Z then Some (n - 87)%Z
  else if (65 <=? n)%Z && (n <=? 70)%Z then Some (n - 55)%Z
  else None.

Definition hex4 (a b c d : ascii) : option Z :=
  match hex_val a, hex_val b, hex_val c, hex_val d with
  | Some x, Some y, Some z, Some w => Some (((x * 16 + y) * 16 + z) * 16 + w)%Z
  | _, _, _, _ => None
  end.

Definition byte_of (n : Z) : ascii := ascii_of_nat (Z.to_nat n).

Definition utf8_encode (u : Z) : list ascii :=
  if (u <? 128)%Z then [byte_of u]
  else if (u <? 2048)%Z then [byte_of (192 + u / 64); byte_of (128 + u mod 64)]
  else if (u <? 65536)%Z then
    [byte_of (224 + u / 4096); byte_of (128 + (u / 64) mod 64); byte_of (128 + u mod 64)]
  else
    [byte_of (240 + u / 262144); byte_of (128 + (u / 4096) mod 64);
     byte_of (128 + (u / 64) mod 64); byte_of (128 + u mod 64)].

Definition simple_escape (e : ascii) : option ascii :=
  match nat_of_ascii e with
  | 34 => Some e | 92 => Some e | 47 => Some e
  | 98 => Some (ascii_of_nat 8) | 102 => Some (ascii_of_nat 12)
  | 110 => Some (ascii_of_nat 10) | 114 => Some (ascii_of_nat 13)
  | 116 => Some (ascii_of_nat 9)
  | _ => None
  end.

(** body of a string literal after its opening quote; [acc] is reversed *)
Fixpoint parse_str_body (acc : list ascii) (s : string) : option (string * string) :=
  match s with
  | EmptyString => None
  | String c r =>
      if Ascii.eqb c quote then Some (string_of_list_ascii (rev acc), r)
      else if Ascii.eqb c "\"%char then
        match r with
        | String e r' =>
            if Ascii.eqb e "u"%char then
              match r' with
              | String a1 (String a2 (String a3 (String a4 r''))) =>
                  match hex4 a1 a2 a3 a4 with
                  | None => None
                  | Some u =>
                      if ((55296 <=? u) && (u <=? 56319))%Z then
                        match r'' with
                        | String b0 (String bu (String b1 (String b2 (String b3 (String b4 r3))))) =>
                            if Ascii.eqb b0 "\"%char && Ascii.eqb bu "u"%char then
                              match hex4 b1 b2 b3 b4 with
                              | None => None
                              | Some u2 =>
                                  if ((56320 <=? u2) && (u2 <=? 57343))%Z then
                                    parse_str_body
                                      (rev (utf8_encode (65536 + (u - 55296) * 1024 + (u2 - 56320))) ++ acc) r3
                                  else parse_str_body (rev (utf8_encode u) ++ acc) r''
                              end
                            else parse_str_body (rev (utf8_encode u) ++ acc) r''
                        | _ => parse_str_body (rev (utf8_encode u) ++ acc) r''
                        end
                      else parse_str_body (rev (utf8_encode u) ++ acc) r''
                  end
              | _ => None
              end
            else
              match simple_escape e with
              | Some d => parse_str_body (d :: acc) r'
              | None => None
              end
        | EmptyString => None
        end
      else if Nat.ltb (nat_of_ascii c) 32 then None
      else parse_str_body (c :: acc) r
  end.


(** [scan_once]: [depth] is how many more arrays or objects may be entered *)
Fixpoint parse_value (env : runtime) (fuel depth : nat) (s : string) {struct fuel} : scanned :=
  match fuel with
  | O => ScanDecodeError
  | S f =>
      match s with
      | EmptyString => ScanDecodeError
      | String c r =>
          if Ascii.eqb c quote then
            match parse_str_body [] r with
            | Some (str, rest) => Scanned (JStr str) rest
            | None => ScanDecodeError
            end
          else if Ascii.eqb c "{"%char then
            match depth with
            | O => ScanRaised
            | S d =>
                match skip_ws r with
                | String e r' => if Ascii.eqb e "}"%char then Scanned (JObj []) r'
                                 else parse_members env f d [] (String e r')
                | EmptyString => ScanDecodeError
                end
            end
          else if Ascii.eqb c "["%char then
            match depth with
            | O => ScanRaised
            | S d =>
                match skip_ws r with
                | String e r' => if Ascii.eqb e "]"%char then Scanned (JArr []) r'
                                 else parse_elems env f d [] (String e r')
                | EmptyString => ScanDecodeError
                end
            end
          else
            match parse_literal s with
            | Some (v, rest) => Scanned v rest
            | None => parse_number env s
            end
      end
  end
with parse_members (env : runtime) (fuel depth : nat) (acc : list (string * json)) (s : string)
  {struct fuel} : scanned :=
  match fuel with
  | O => ScanDecodeError
  | S f =>
      match s with
      | String c r =>
          if negb (Ascii.eqb c quote) then ScanDecodeError else
          match parse_str_body [] r with
          | None => ScanDecodeError
          | Some (k, r1) =>
              match skip_ws r1 with
              | String colon r2 =>
                  if negb (Ascii.eqb colon ":"%char) then ScanDecodeError else
                  match parse_value env f depth (skip_ws r2) with
                  | Scanned v r3 =>
                      let acc' := dict_set k v acc in
                      match skip_ws r3 with
                      | String e r4 =>
                          if Ascii.eqb e "}"%char then Scanned (JObj acc') r4
                          else if Ascii.eqb e ","%char then
                            parse_members env f depth acc' (skip_ws r4)
                          else ScanDecodeError
                      | EmptyString => ScanDecodeError
                      end
                  | other => other
                  end
              | EmptyString => ScanDecodeError
              end
          end
      | EmptyString => ScanDecodeError
      end
  end
with parse_elems (env : runtime) (fuel depth : nat) (acc : list json) (s : string)
  {struct fuel} : scanned :=
  match fuel with
  | O => ScanDecodeError
  | S f =>
      match parse_value env f depth s with
      | Scanned v r1 =>
          match skip_ws r1 with
          | String e r2 =>
              if Ascii.eqb e "]"%char then Scanned (JArr (rev (v :: acc))) r2
              else if Ascii.eqb e ","%char then parse_elems env f depth (v :: acc) (skip_ws r2)
              else ScanDecodeError
          | EmptyString => ScanDecodeError
          end
      | other => other
      end
  end.

(** the three outcomes of [json.loads(s)] *)
Inductive loads_result : Type :=
| Loaded (v : json)
| JSONDecodeError
| LoadsRaised.    (* RecursionError or ValueError *)

Definition json_loads (env : runtime) (s : string) : loads_result :=
  let s' := skip_ws s in
  match parse_value env (2 * String.length s' + 2) (max_depth env) s' with
  | Scanned v rest =>
      match skip_ws rest with
      | EmptyString => Loaded v
      | String _ _ => JSONDecodeError
      end
  | ScanDecodeError => JSONDecodeError
  | ScanRaised => LoadsRaised
  end.

(** [dict.get] chains raise at the first non-[dict] receiver *)
Notation "'let?' x ':=' a 'in' b" :=
  (match a with Some x => b | None => None end)
  (at level 200, x ident, a at level 100, b at level 200).

(** [d.get(k, default)] on a [dict] *)
Definition get_or (kvs : list (string * json)) (k : string) (default : json) : json :=
  match dict_lookup k kvs with
  | Some v => v
  | None => default
  end.

(** ** Streaming sessions: [monitor_windows] and [auto_tile] *)

(** What a session prints or does, in order. Timestamps and text layout are
    not modelled; each constructor is one [print] (or [proc.terminate()]). *)
Inductive action : Type :=
| Banner                                    (* 'Monitoring ...' / 'Auto-tiling ...' (stderr) *)
| WindowCreated (title workspace : json)    (* monitor: Window Created *)
| WindowClosed (hwnd : json)                (* monitor: Window Closed *)
| WindowFocused (hwnd : json)               (* monitor: Window Focused *)
| UnknownEvent (event_name : json)          (* monitor: Unknown event *)
| NewWindow (title hwnd workspace : json)   (* auto_tiler: New window *)
| ParseFailed                               (* 'Failed to parse event: ...' (stderr) *)
| Stopping                                  (* 'Stopping ...' (stderr) *)
| Terminate                                 (* proc.terminate() *)
| ErrorReport.                              (* 'Error: {e}' (stderr) *)

(** a line read from [proc.stdout], or a Ctrl+C arriving while it is awaited *)
Inductive item : Type :=
| Line (line : string)
| Interrupt.

(** exceptions that leave the [for] loop *)
Inductive exn : Type :=
| KeyboardInterrupt
| OtherError.   (* any other exception, caught by [except Exception] *)

(** the [print]s to [sys.stdout] encode the values they interpolate *)
Definition action_encodes (env : runtime) (a : action) : bool :=
  match a with
  | WindowCreated title workspace => py_str_encodes env title && py_str_encodes env workspace
  | WindowClosed hwnd | WindowFocused hwnd => py_str_encodes env hwnd
  | UnknownEvent event_name => py_str_encodes env event_name
  | NewWindow title hwnd workspace =>
      py_str_encodes env title && py_str_encodes env hwnd && py_str_encodes env workspace
  | _ => true
  end.

(** [print(...)] to [sys.stdout]; [None] is the [UnicodeEncodeError] raised
    when the text cannot be encoded (nothing of it is written) *)
Definition stdout_print (env : runtime) (a : action) : option (list action) :=
  if action_encodes env a then Some [a] else None.

(** window_monitor.py, lines 34-48: the if/elif chain *)
Inductive monitor_branch : Type := BCreated | BClosed | BFocused | BDefault.

Definition monitor_select (event_name : json) : monitor_branch :=
  if is_str event_name "window_created" then BCreated
  else if is_str event_name "window_closed" then BClosed
  else if is_str event_name "window_focused" then BFocused
  else BDefault.

Definition monitor_dispatch (env : runtime) (event_name event_data : json)
  : option (list action) :=
  match monitor_select event_name with
  | BCreated =>
      let? title := py_get event_data "title" (JStr "Unknown") in
      let? workspace := py_get event_data "workspace" (JStr "?") in
      stdout_print env (WindowCreated title workspace)
  | BClosed =>
      let? hwnd := py_get event_data "hwnd" (JStr "Unknown") in
      stdout_print env (WindowClosed hwnd)
  | BFocused =>
      let? hwnd := py_get event_data "hwnd" (JStr "Unknown") in
      stdout_print env (WindowFocused hwnd)
  | BDefault => stdout_print env (UnknownEvent event_name)
  end.

(** window_monitor.py, lines 30-48: body of the inner [try] after [json.loads] *)
Definition monitor_body (env : runtime) (event : json) : option (list action) :=
  let? event_name := py_get event "name" (JStr "unknown") in
  let? event_data := py_get event "data" (JObj []) in
  monitor_dispatch env event_name event_data.

(** auto_tiler.py, lines 31-37 *)
Definition on_window_created (env : runtime) (event_data : json) : option (list action) :=
  let? hwnd := py_get event_data "hwnd" JNull in
  let? title := py_get event_data "title" (JStr "Unknown") in
  let? workspace := py_get event_data "workspace" (JStr "?") in
  stdout_print env (NewWindow title hwnd workspace).

(** auto_tiler.py, lines 30-37 *)
Definition auto_tile_body (env : runtime) (event : json) : option (list action) :=
  let? name := py_get event "name" JNull in
  if is_str name "window_created" then
    let? event_data := py_get event "data" (JObj []) in
    on_window_created env event_data
  else Some [].

Section Session.
Variable env : runtime.
(** the statements run for a decoded event; [None] is a raised exception *)
Variable body : json -> option (list action).

(** [for line in proc.stdout: try: event = json.loads(line.strip()) ...
    except json.JSONDecodeError: print(...); continue]; any other exception
    of [json.loads] leaves the loop *)
Fixpoint event_loop (items : list item) : list action * option exn :=
  match items with
  | [] => ([], None)
  | Interrupt :: _ => ([], Some KeyboardInterrupt)
  | Line line :: rest =>
      match json_loads env (py_strip line) with
      | JSONDecodeError =>
          let (tr, e) := event_loop rest in (ParseFailed :: tr, e)
      | LoadsRaised => ([], Some OtherError)
      | Loaded event =>
          match body event with
          | None => ([], Some OtherError)
          | Some outs => let (tr, e) := event_loop rest in (outs ++ tr, e)
          end
      end
  end.

(** the whole function: banner, [Popen] (false: it raised), the loop, and the
    two handlers of the outer [try]. [None] is the implicit [return None]
    after the loop reaches end of stream. *)
Definition session (spawned : bool) (items : list item) : list action * option Z :=
  if negb spawned then ([Banner; ErrorReport], Some 1%Z) else
  let (tr, e) := event_loop items in
  match e with
  | None => (Banner :: tr, None)
  | Some KeyboardInterrupt => (Banner :: tr ++ [Stopping; Terminate], Some 0%Z)
  | Some OtherError => (Banner :: tr ++ [ErrorReport], Some 1%Z)
  end.
End Session.

Definition monitor_windows (env : runtime) := session env (monitor_body env).
Definition auto_tile (env : runtime) := session env (auto_tile_body env).

(** [sys.exit(r)]: [None] exits with status 0 *)
Definition exit_status (r : option Z) : Z :=
  match r with None => 0%Z | Some z => z end.

(** ** Command path: [get_active_window] and [get_workspaces] *)

(** [subprocess.run(..., capture_output=True, text=True, check=False)] *)
Record completed : Type := {
  returncode : Z;
  stdout : string
}.

(** The outcome of the lines shared by both scripts (22-32), up to
    [response.get('data', default)]. *)
Inductive response : Type :=
| RProcessFailed                (* returncode != 0 *)
| RDecodeError                  (* json.loads raised JSONDecodeError *)
| RLoadsRaised                  (* json.loads raised RecursionError or ValueError *)
| RAttributeError               (* response is not a dict *)
| RNotSuccess (message : json)  (* type != 'success': response.get('message', 'Unknown error') *)
| RSuccess (data : json).       (* response.get('data', default) *)

(** the values of one workspace_status.py row, lines 38-42 *)
Record ws_view : Type := {
  ws_id : json; ws_name : json; ws_monitor : json;
  ws_window_count : json; ws_active : json
}.

(** what the command scripts print, one constructor per [print] *)
Inductive report : Type :=
| ErrFailedToGet                 (* 'Error: Failed to get ... information' *)
| ErrMessage (message : json)    (* 'Error: {message}' (stderr) *)
| ErrParsing                     (* 'Error parsing response: ...' (stderr) *)
| ErrNotInstalled                (* 'twm' command not found (stderr) *)
| ErrOther                       (* 'Error: {e}' (stderr) *)
| ActiveWindowHeader             (* 'Active Window:' and a blank line *)
| WindowField (label : string) (value : json)   (* '  {label}: {value}' *)
| Position (x y : json)
| Size (width height : json)
| WorkspaceHeader                (* 'Workspace Status:' and a blank line *)
| WorkspaceRow (active : bool) (v : ws_view).

(** the [print]s to [sys.stdout] encode the values they interpolate *)
Definition report_encodes (env : runtime) (r : report) : bool :=
  match r with
  | WindowField _ v => py_str_encodes env v
  | Position x y => py_str_encodes env x && py_str_encodes env y
  | Size width height => py_str_encodes env width && py_str_encodes env height
  | WorkspaceRow _ v =>
      py_str_encodes env (ws_id v) && py_str_encodes env (ws_name v) &&
      py_str_encodes env (ws_window_count v) && py_str_encodes env (ws_monitor v)
  | _ => true
  end.

(** the lines printed by a block of statements, in order, and whether an
    exception left it *)
Definition printed := (list report * bool)%type.

(** [print(r)] to [sys.stdout], then [k]; a text the encoder refuses raises
    [UnicodeEncodeError] and nothing of it is written *)
Definition print_then (env : runtime) (r : report) (k : printed) : printed :=
  if report_encodes env r then let (out, raised) := k in (r :: out, raised)
  else ([], true).

(** the error branches shared by both scripts *)
Definition command_error (r : response) : list report :=
  match r with
  | RProcessFailed => [ErrFailedToGet]
  | RDecodeError => [ErrParsing]
  | RNotSuccess m => [ErrMessage m]
  | RLoadsRaised | RAttributeError | RSuccess _ => [ErrOther]
  end.

Section CommandPath.
Variable env : runtime.

(** a [.get] on a non-[dict] raises *)
Local Notation "'let!' x ':=' a 'in' b" :=
  (match a with Some x => b | None => ([], true) end)
  (at level 200, x ident, a at level 100, b at level 200).
Local Notation "'print' r ';;' k" := (print_then env r k) (at level 200, r at level 100, k at level 200).

Definition command_response (data_default : json) (result : completed) : response :=
  if negb (returncode result =? 0)%Z then RProcessFailed else
  match json_loads env (stdout result) with
  | JSONDecodeError => RDecodeError
  | LoadsRaised => RLoadsRaised
  | Loaded resp =>
      match py_get resp "type" JNull with
      | None => RAttributeError
      | Some ty =>
          if negb (is_str ty "success") then
            match py_get resp "message" (JStr "Unknown error") with
            | Some m => RNotSuccess m
            | None => RAttributeError
            end
          else
            match py_get resp "data" data_default with
            | Some d => RSuccess d
            | None => RAttributeError
            end
      end
  end.

(** window_info.py, lines 36-46, one [print] at a time *)
Definition show_window (window : json) : printed :=
  let! hwnd := py_get window "hwnd" (JStr "Unknown") in
  print WindowField "HWND" hwnd ;;
  let! title := py_get window "title" (JStr "Unknown") in
  print WindowField "Title" title ;;
  let! cls := py_get window "class" (JStr "Unknown") in
  print WindowField "Class" cls ;;
  let! process_name := py_get window "process_name" (JStr "Unknown") in
  print WindowField "Process" process_name ;;
  let! workspace := py_get window "workspace" (JStr "?") in
  print WindowField "Workspace" workspace ;;
  let! monitor := py_get window "monitor" (JStr "?") in
  print WindowField "Monitor" monitor ;;
  let! state := py_get window "state" (JStr "Unknown") in
  print WindowField "State" state ;;
  let! rect := py_get window "rect" (JObj []) in
  let! x := py_get rect "x" (JInt 0) in
  let! y := py_get rect "y" (JInt 0) in
  print Position x y ;;
  let! width := py_get rect "width" (JInt 0) in
  let! height := py_get rect "height" (JInt 0) in
  print Size width height ;;
  ([], false).

(** [None]: [subprocess.run] raised [FileNotFoundError] *)
Definition get_active_window (run : option completed) : list report * Z :=
  match run with
  | None => ([ErrNotInstalled], 1%Z)
  | Some result =>
      match command_response (JObj []) result with
      | RSuccess window =>
          let (out, raised) := show_window window in
          if raised then (ActiveWindowHeader :: out ++ [ErrOther], 1%Z)
          else (ActiveWindowHeader :: out, 0%Z)
      | r => (command_error r, 1%Z)
      end
  end.

(** workspace_status.py, lines 37-46 *)
Fixpoint print_workspaces (wss : list json) : printed :=
  match wss with
  | [] => ([], false)
  | ws :: rest =>
      let! ws_id := py_get ws "id" (JStr "?") in
      let! name := py_get ws "name" (JStr "Unknown") in
      let! monitor := py_get ws "monitor" (JStr "?") in
      let! window_count := py_get ws "window_count" (JInt 0) in
      let! active := py_get ws "active" (JBool false) in
      print WorkspaceRow (py_truthy active)
        {| ws_id := ws_id; ws_name := name; ws_monitor := monitor;
           ws_window_count := window_count; ws_active := active |} ;;
      print_workspaces rest
  end.

Definition get_workspaces (run : option completed) : list report * Z :=
  match run with
  | None => ([ErrNotInstalled], 1%Z)
  | Some result =>
      match command_response (JArr []) result with
      | RSuccess workspaces =>
          match py_iter workspaces with
          | None => ([WorkspaceHeader; ErrOther], 1%Z)
          | Some wss =>
              let (out, raised) := print_workspaces wss in
              if raised then (WorkspaceHeader :: out ++ [ErrOther], 1%Z)
              else (WorkspaceHeader :: out, 0%Z)
          end
      | r => (command_error r, 1%Z)
      end
  end.
End CommandPath.

(** Literal input lines below are written with ['] for the JSON double quote. *)
Fixpoint dq (s : string) : string :=
  match s with
  | EmptyString => EmptyString
  | String c r => String (if Ascii.eqb c "'"%char then quote else c) (dq r)
  end.

(** actions that are the output of a dispatched event *)
Definition is_dispatch (a : action) : bool :=
  match a with
  | WindowCreated _ _ | WindowClosed _ | WindowFocused _ | UnknownEvent _
  | NewWindow _ _ _ => true
  | _ => false
  end.

(** the minimal event shape [{name, data?}] with [data] a mapping when present *)
Definition well_formed_event (ev : json) : Prop :=
  exists kvs, ev = JObj kvs /\
    match dict_lookup "data" kvs with
    | None => True
    | Some (JObj _) => True
    | Some _ => False
    end.

(** every [str] inside [v] is one [sys.stdout] can encode *)
Fixpoint json_prints (env : runtime) (v : json) : bool :=
  match v with
  | JStr s => stdout_encodes (stdout_errors env) s
  | JArr l => forallb (json_prints env) l
  | JObj kvs => forallb (fun '(_, x) => json_prints env x) kvs
  | _ => true
  end.

Definition event_name_of (ev : json) : json :=
  match ev with JObj kvs => get_or kvs "name" JNull | _ => JNull end.

(** [n] copies of the character [c] *)
Fixpoint repeat_char (c : ascii) (n : nat) : string :=
  match n with
  | O => EmptyString
  | S m => String c (repeat_char c m)
  end.

(** sample inputs *)
Definition created_line : string :=
  dq "{'name':'window_created','data':{'hwnd':123,'title':'Notes','workspace':2}}".
Definition created_event : json :=
  JObj [("name", JStr "window_created");
        ("data", JObj [("hwnd", JInt 123); ("title", JStr "Notes"); ("workspace", JInt 2)])].
Definition closed_line : string := dq "{'name':'window_closed','data':{'hwnd':7}}".
Definition bad_line : string := "{'name': oops".
(** a decodable line whose [data] is [null]: [None.get] raises *)
Definition null_data_line : string := dq "{'name':'window_created','data':null}".
Definition blank_line : string := String " " (String (ascii_of_nat 9) (String (ascii_of_nat 10) EmptyString)).
(** U+D800 as [json.loads] holds it after decoding the escape [\ud800] *)
Definition lone_surrogate : string :=
  String (ascii_of_nat 237) (String (ascii_of_nat 160) (String (ascii_of_nat 128) EmptyString)).
(** events carrying the lone surrogate U+D800 *)
Definition surrogate_name_line : string := dq "{'name':'\ud800'}".
Definition mk_completed (rc : Z) (out : string) : completed :=
  {| returncode := rc; stdout := out |}.
Definition workspace_listing : string :=
  dq "{'type':'success','data':[{'id':1,'name':'main','monitor':0,'window_count':3,'active':true},{'id':2,'name':'side','monitor':1,'window_count':0,'active':false}]}".

(** ** Views used by the statements *)

Definition is_object (v : json) : bool :=
  match v with JObj _ => true | _ => false end.

Definition is_parse_failed (a : action) : bool :=
  match a with ParseFailed => true | _ => false end.

Definition is_new_window (a : action) : bool :=
  match a with NewWindow _ _ _ => true | _ => false end.

(** a stream item on which [json.loads(line.strip())] raises [JSONDecodeError] *)
Definition line_undecodable (env : runtime) (i : item) : bool :=
  match i with
  | Line l => match json_loads env (py_strip l) with JSONDecodeError => true | _ => false end
  | Interrupt => false
  end.

(** a stream item decoding to an event whose [event.get('name')] is
    'window_created' *)
Definition line_created_event (env : runtime) (i : item) : bool :=
  match i with
  | Line l =>
      match json_loads env (py_strip l) with
      | Loaded ev => is_str (event_name_of ev) "window_created"
      | _ => false
      end
  | Interrupt => false
  end.

(** the seven field lines window_info.py prints for a [dict] window *)
Definition window_field_lines (w : list (string * json)) : list report :=
  [WindowField "HWND" (get_or w "hwnd" (JStr "Unknown"));
   WindowField "Title" (get_or w "title" (JStr "Unknown"));
   WindowField "Class" (get_or w "class" (JStr "Unknown"));
   WindowField "Process" (get_or w "process_name" (JStr "Unknown"));
   WindowField "Workspace" (get_or w "workspace" (JStr "?"));
   WindowField "Monitor" (get_or w "monitor" (JStr "?"));
   WindowField "State" (get_or w "state" (JStr "Unknown"))].

(** the position and size lines for a [dict] rect *)
Definition rect_lines (r : list (string * json)) : list report :=
  [Position (get_or r "x" (JInt 0)) (get_or r "y" (JInt 0));
   Size (get_or r "width" (JInt 0)) (get_or r "height" (JInt 0))].

(** the row workspace_status.py prints for a [dict] workspace *)
Definition workspace_row (ws : list (string * json)) : report :=
  WorkspaceRow (py_truthy (get_or ws "active" (JBool false)))
    {| ws_id := get_or ws "id" (JStr "?");
       ws_name := get_or ws "name" (JStr "Unknown");
       ws_monitor := get_or ws "monitor" (JStr "?");
       ws_window_count := get_or ws "window_count" (JInt 0);
       ws_active := get_or ws "active" (JBool false) |}.

(** [print] each line in turn *)
Definition print_lines (env : runtime) (rs : list report) : printed :=
  fold_right (print_then env) ([], false) rs.

(** the lines before the first one [sys.stdout] cannot encode *)
Fixpoint printed_prefix (env : runtime) (rs : list report) : list report :=
  match rs with
  | [] => []
  | r :: rest => if report_encodes env r then r :: printed_prefix env rest else []
  end.

(** event bodies whose outputs are only dispatch actions *)
Definition dispatch_only (body : json -> option (list action)) : Prop :=
  forall ev outs, body ev = Some outs -> forallb is_dispatch outs = true.

(** ** Lemmas *)

Ltac destruct_lookups :=
  repeat match goal with
  | |- context [match dict_lookup ?k ?l with _ => _ end] => destruct (dict_lookup k l)
  end.

(** split a [runtime] into the shapes its invariants allow, so that a
    concrete input can be evaluated under every one of them *)
Ltac open_runtime env :=
  let md := fresh "md" in let dg := fresh "dg" in let er := fresh "er" in
  let Hmd := fresh "Hmd" in let Hdg := fresh "Hdg" in
  let k := fresh "k" in let j := fresh "j" in
  destruct env as [md dg er Hmd Hdg];
  assert (exists k, md = 100 + k) as [k ->] by (exists (md - 100); lia);
  destruct Hdg as [->|Hdg];
  [| assert (exists j, dg = 640 + j) as [j ->] by (exists (dg - 640); lia)];
  destruct er.

Ltac eval_runtime env := open_runtime env; vm_compute; repeat split.

Lemma event_loop_app env (body : json -> option (list action)) (p q : list item) :
  event_loop env body (p ++ q) =
  match event_loop env body p with
  | (tr, None) => let (tr', e) := event_loop env body q in (tr ++ tr', e)
  | (tr, Some x) => (tr, Some x)
  end.
Proof.
  induction p as [|[line|] p IH]; simpl.
  - destruct (event_loop env body q); reflexivity.
  - destruct (json_loads env (py_strip line)) as [ev| |].
    + destruct (body ev) as [outs|]; [|reflexivity].
      rewrite IH. destruct (event_loop env body p) as [tr [x|]]; [reflexivity|].
      destruct (event_loop env body q). rewrite app_assoc. reflexivity.
    + rewrite IH. destruct (event_loop env body p) as [tr [x|]]; [reflexivity|].
      destruct (event_loop env body q). reflexivity.
    + reflexivity.
  - reflexivity.
Qed.

Lemma event_loop_decoded env (body : json -> option (list action)) line ev outs rest :
  json_loads env (py_strip line) = Loaded ev -> body ev = Some outs ->
  event_loop env body (Line line :: rest) =
  (outs ++ fst (event_loop env body rest), snd (event_loop env body rest)).
Proof.
  intros Hj Hb. simpl. rewrite Hj, Hb. destruct (event_loop env body rest); reflexivity.
Qed.

Lemma event_loop_undecodable env (body : json -> option (list action)) line rest :
  json_loads env (py_strip line) = JSONDecodeError ->
  event_loop env body (Line line :: rest) =
  (ParseFailed :: fst (event_loop env body rest), snd (event_loop env body rest)).
Proof.
  intros Hj. simpl. rewrite Hj. destruct (event_loop env body rest); reflexivity.
Qed.

Lemma event_loop_raises env (body : json -> option (list action)) line ev rest :
  json_loads env (py_strip line) = Loaded ev -> body ev = None ->
  event_loop env body (Line line :: rest) = ([], Some OtherError).
Proof.
  intros Hj Hb. simpl. rewrite Hj, Hb. reflexivity.
Qed.

Lemma event_loop_loads_raises env (body : json -> option (list action)) line rest :
  json_loads env (py_strip line) = LoadsRaised ->
  event_loop env body (Line line :: rest) = ([], Some OtherError).
Proof.
  intros Hj. simpl. rewrite Hj. reflexivity.
Qed.

Lemma session_loads_raised env (body : json -> option (list action)) prefix line rest :
  snd (event_loop env body prefix) = None ->
  json_loads env (py_strip line) = LoadsRaised ->
  session env body true (prefix ++ Line line :: rest) =
    (Banner :: fst (event_loop env body prefix) ++ [ErrorReport], Some 1%Z).
Proof.
  intros Hp Hj. unfold session; cbn [negb].
  rewrite event_loop_app, (event_loop_loads_raises _ _ _ _ Hj).
  destruct (event_loop env body prefix) as [tr e]. cbn [snd] in Hp. subst e.
  rewrite app_nil_r. reflexivity.
Qed.

Lemma py_get_obj kvs k d : py_get (JObj kvs) k d = Some (get_or kvs k d).
Proof. unfold py_get, get_or. destruct (dict_lookup k kvs); reflexivity. Qed.

Lemma json_prints_lookup env kvs k v :
  json_prints env (JObj kvs) = true -> dict_lookup k kvs = Some v -> json_prints env v = true.
Proof.
  induction kvs as [|[k' v'] kvs IH]; cbn [dict_lookup]; [discriminate|].
  intros H. change (json_prints env v' && json_prints env (JObj kvs) = true) in H.
  apply andb_prop in H as [H1 H2].
  destruct (String.eqb k k'); [intros E; injection E as <-; exact H1 | exact (IH H2)].
Qed.

Lemma json_prints_encodes env v : json_prints env v = true -> py_str_encodes env v = true.
Proof. destruct v; simpl; intros H; try reflexivity; exact H. Qed.

Lemma json_prints_get env kvs k d :
  json_prints env (JObj kvs) = true -> json_prints env d = true ->
  json_prints env (get_or kvs k d) = true.
Proof.
  intros H Hd. unfold get_or. destruct (dict_lookup k kvs) eqn:E; [|exact Hd].
  exact (json_prints_lookup _ _ _ _ H E).
Qed.

Lemma get_or_encodes env kvs k d :
  json_prints env (JObj kvs) = true -> py_str_encodes env d = true ->
  py_str_encodes env (get_or kvs k d) = true.
Proof.
  intros H Hd. unfold get_or. destruct (dict_lookup k kvs) eqn:E; [|exact Hd].
  exact (json_prints_encodes _ _ (json_prints_lookup _ _ _ _ H E)).
Qed.

Lemma well_formed_data env kvs :
  match dict_lookup "data" kvs with None => True | Some (JObj _) => True | Some _ => False end ->
  json_prints env (JObj kvs) = true ->
  exists d, get_or kvs "data" (JObj []) = JObj d /\ json_prints env (JObj d) = true.
Proof.
  intros Hd Hp. unfold get_or. destruct (dict_lookup "data" kvs) as [v|] eqn:E.
  - destruct v; try contradiction. eexists; split; [reflexivity|].
    exact (json_prints_lookup _ _ _ _ Hp E).
  - eexists; split; reflexivity.
Qed.

Lemma stdout_print_ok env a : action_encodes env a = true -> stdout_print env a = Some [a].
Proof. unfold stdout_print. intros ->. reflexivity. Qed.

Lemma stdout_print_inv env a outs : stdout_print env a = Some outs -> outs = [a].
Proof.
  unfold stdout_print. destruct (action_encodes env a); intros H;
  [injection H as <-; reflexivity | discriminate].
Qed.

Lemma monitor_dispatch_inv env name data outs :
  monitor_dispatch env name data = Some outs -> exists a, outs = [a] /\ is_dispatch a = true.
Proof.
  unfold monitor_dispatch. destruct (monitor_select name);
  repeat match goal with
  | |- context [match ?x with Some _ => _ | None => None end] => destruct x
  end;
  intros H; try discriminate; apply stdout_print_inv in H; subst outs;
  eexists; split; reflexivity.
Qed.

Lemma on_window_created_inv env data outs :
  on_window_created env data = Some outs ->
  exists title hwnd workspace, outs = [NewWindow title hwnd workspace].
Proof.
  unfold on_window_created.
  repeat match goal with
  | |- context [match ?x with Some _ => _ | None => None end] => destruct x
  end;
  intros H; try discriminate; apply stdout_print_inv in H; subst outs; eauto.
Qed.

Lemma monitor_body_well_formed env ev :
  well_formed_event ev -> json_prints env ev = true ->
  exists a, monitor_body env ev = Some [a] /\ is_dispatch a = true.
Proof.
  intros [kvs [-> Hd]] Hp.
  destruct (well_formed_data env kvs Hd Hp) as [d [Ed Pd]].
  unfold monitor_body. rewrite !py_get_obj, Ed. lazy beta iota.
  unfold monitor_dispatch. destruct (monitor_select _); rewrite ?py_get_obj; lazy beta iota;
  (eexists; split;
   [ apply stdout_print_ok; cbn [action_encodes];
     rewrite ?(get_or_encodes env d) by (exact Pd || reflexivity);
     rewrite ?(get_or_encodes env kvs) by (exact Hp || reflexivity); reflexivity
   | reflexivity ]).
Qed.

Lemma auto_tile_body_well_formed env ev :
  well_formed_event ev -> json_prints env ev = true ->
  exists o, auto_tile_body env ev = Some o /\
    length o = (if is_str (event_name_of ev) "window_created" then 1 else 0) /\
    forallb is_dispatch o = true.
Proof.
  intros [kvs [-> Hd]] Hp.
  destruct (well_formed_data env kvs Hd Hp) as [d [Ed Pd]].
  unfold auto_tile_body, event_name_of. rewrite py_get_obj. lazy beta iota.
  destruct (is_str (get_or kvs "name" JNull) "window_created").
  - rewrite py_get_obj, Ed. lazy beta iota. unfold on_window_created.
    rewrite !py_get_obj. lazy beta iota.
    eexists; split;
    [ apply stdout_print_ok; cbn [action_encodes];
      rewrite ?(get_or_encodes env d) by (exact Pd || reflexivity); reflexivity
    | split; reflexivity ].
  - eexists; repeat split; reflexivity.
Qed.

Lemma monitor_body_dispatch_only env : dispatch_only (monitor_body env).
Proof.
  intros ev outs H. destruct ev; try discriminate. unfold monitor_body in H.
  rewrite !py_get_obj in H. lazy beta iota in H.
  destruct (monitor_dispatch_inv _ _ _ _ H) as [a [-> Ha]]. cbn. rewrite Ha. reflexivity.
Qed.

Lemma monitor_body_one_action env ev outs :
  monitor_body env ev = Some outs -> length outs = 1.
Proof.
  intros H. destruct ev; try discriminate. unfold monitor_body in H.
  rewrite !py_get_obj in H. lazy beta iota in H.
  destruct (monitor_dispatch_inv _ _ _ _ H) as [a [-> _]]. reflexivity.
Qed.

Lemma auto_tile_body_new_windows env ev outs :
  auto_tile_body env ev = Some outs ->
  forallb is_dispatch outs = true /\
  length (filter is_new_window outs) =
    (if is_str (event_name_of ev) "window_created" then 1 else 0).
Proof.
  intros H. destruct ev; try discriminate. unfold auto_tile_body in H.
  rewrite py_get_obj in H. lazy beta iota in H. cbn [event_name_of].
  destruct (is_str _ _).
  - rewrite py_get_obj in H. lazy beta iota in H.
    destruct (on_window_created_inv _ _ _ H) as [t [h [w ->]]]. split; reflexivity.
  - injection H as <-. split; reflexivity.
Qed.

Lemma auto_tile_body_dispatch_only env : dispatch_only (auto_tile_body env).
Proof. intros ev outs H. exact (proj1 (auto_tile_body_new_windows env ev outs H)). Qed.

(** printing a list of lines *)

Lemma fold_print_then env rs o b :
  fold_right (print_then env) (o, b) rs =
  if forallb (report_encodes env) rs then (rs ++ o, b) else (printed_prefix env rs, true).
Proof.
  induction rs as [|r rs IH]; [reflexivity|].
  cbn [fold_right forallb printed_prefix]. rewrite IH. unfold print_then.
  destruct (report_encodes env r); cbn [andb]; [|reflexivity].
  destruct (forallb (report_encodes env) rs); reflexivity.
Qed.

Lemma fold_print_then_raised env rs :
  fold_right (print_then env) ([], true) rs = (printed_prefix env rs, true).
Proof.
  induction rs as [|r rs IH]; [reflexivity|].
  cbn [fold_right printed_prefix]. rewrite IH. unfold print_then.
  destruct (report_encodes env r); reflexivity.
Qed.

Lemma print_lines_prefix env rs :
  print_lines env rs =
  if forallb (report_encodes env) rs then (rs, false) else (printed_prefix env rs, true).
Proof. unfold print_lines. rewrite fold_print_then, app_nil_r. reflexivity. Qed.

Lemma printed_prefix_all env rs :
  forallb (report_encodes env) rs = true -> printed_prefix env rs = rs.
Proof.
  induction rs as [|r rs IH]; [reflexivity|]. cbn [forallb printed_prefix].
  intros H. apply andb_prop in H as [H1 H2]. rewrite H1, (IH H2). reflexivity.
Qed.

Lemma show_window_obj env w :
  show_window env (JObj w) =
  fold_right (print_then env)
    (match get_or w "rect" (JObj []) with
     | JObj r => print_lines env (rect_lines r)
     | _ => ([], true)
     end) (window_field_lines w).
Proof.
  unfold show_window. rewrite !py_get_obj. lazy beta iota.
  destruct (get_or w "rect" (JObj [])); try reflexivity.
  rewrite !py_get_obj. reflexivity.
Qed.

Lemma print_workspaces_objects env wl l :
  print_workspaces env (map JObj wl ++ l) =
  fold_right (print_then env) (print_workspaces env l) (map workspace_row wl).
Proof.
  induction wl as [|ws wl IH]; [reflexivity|].
  cbn [map app fold_right print_workspaces]. rewrite !py_get_obj. lazy beta iota.
  rewrite IH. reflexivity.
Qed.

Lemma command_response_decoded_obj env dd out kvs :
  json_loads env out = Loaded (JObj kvs) ->
  command_response env dd (mk_completed 0 out) =
  if is_str (get_or kvs "type" JNull) "success" then RSuccess (get_or kvs "data" dd)
  else RNotSuccess (get_or kvs "message" (JStr "Unknown error")).
Proof.
  intros Hj. unfold command_response. cbn [returncode stdout mk_completed Z.eqb negb].
  rewrite Hj, !py_get_obj. lazy beta iota.
  destruct (is_str _ _); reflexivity.
Qed.

Lemma nonzero_exit_is_process_failed_gen env rc out :
  rc <> 0%Z ->
  get_active_window env (Some (mk_completed rc out)) = ([ErrFailedToGet], 1%Z) /\
  get_workspaces env (Some (mk_completed rc out)) = ([ErrFailedToGet], 1%Z).
Proof.
  intros Hrc. unfold get_active_window, get_workspaces, command_response; simpl.
  destruct (Z.eqb_spec rc 0); [contradiction|]. split; reflexivity.
Qed.

Lemma command_loads_failed env out :
  (json_loads env out = JSONDecodeError ->
   get_active_window env (Some (mk_completed 0 out)) = ([ErrParsing], 1%Z) /\
   get_workspaces env (Some (mk_completed 0 out)) = ([ErrParsing], 1%Z)) /\
  (json_loads env out = LoadsRaised ->
   get_active_window env (Some (mk_completed 0 out)) = ([ErrOther], 1%Z) /\
   get_workspaces env (Some (mk_completed 0 out)) = ([ErrOther], 1%Z)).
Proof.
  unfold get_active_window, get_workspaces, command_response.
  cbn [returncode stdout mk_completed Z.eqb negb].
  split; intros Hj; rewrite Hj; split; reflexivity.
Qed.

Lemma command_non_object_gen env out v :
  json_loads env out = Loaded v -> is_object v = false ->
  get_active_window env (Some (mk_completed 0 out)) = ([ErrOther], 1%Z) /\
  get_workspaces env (Some (mk_completed 0 out)) = ([ErrOther], 1%Z).
Proof.
  intros Hj Hv. unfold get_active_window, get_workspaces, command_response.
  cbn [returncode stdout mk_completed Z.eqb negb]. rewrite Hj.
  destruct v; try discriminate; split; reflexivity.
Qed.

(** inputs [json.loads] raises on *)

Lemma repeat_char_length c n : String.length (repeat_char c n) = n.
Proof. induction n as [|n IH]; simpl; congruence. Qed.

Lemma list_ascii_repeat_char c n : list_ascii_of_string (repeat_char c n) = repeat c n.
Proof. induction n as [|n IH]; simpl; [reflexivity|]. rewrite IH. reflexivity. Qed.

Lemma string_of_repeat c n : string_of_list_ascii (repeat c n) = repeat_char c n.
Proof. induction n as [|n IH]; simpl; [reflexivity|]. rewrite IH. reflexivity. Qed.

Lemma lstrip_nonspace f seqs c l :
  first_space seqs (c :: l) = None -> lstrip_bytes f seqs (c :: l) = c :: l.
Proof. intros H. destruct f; simpl; [reflexivity|]. rewrite H. reflexivity. Qed.

Lemma py_strip_repeat_char c n :
  (forall l, first_space py_space_seqs (c :: l) = None) ->
  (forall l, first_space (map (@rev nat) py_space_seqs) (c :: l) = None) ->
  py_strip (repeat_char c n) = repeat_char c n.
Proof.
  intros H1 H2. unfold py_strip. rewrite list_ascii_repeat_char. cbv zeta.
  destruct n as [|n]; [reflexivity|].
  change (repeat c (S n)) with (c :: repeat c n).
  rewrite (lstrip_nonspace _ _ _ _ (H1 _)).
  change (c :: repeat c n) with (repeat c (S n)). rewrite rev_repeat.
  change (repeat c (S n)) with (c :: repeat c n).
  rewrite (lstrip_nonspace _ _ _ _ (H2 _)).
  change (c :: repeat c n) with (repeat c (S n)).
  rewrite rev_repeat, string_of_repeat. reflexivity.
Qed.

Lemma parse_brackets_raises env :
  forall d k f, (d < k)%nat -> (2 * d < f)%nat ->
  parse_value env f d (repeat_char "["%char k) = ScanRaised.
Proof.
  induction d as [|d IH]; intros k f Hk Hf.
  - destruct k as [|k]; [lia|]. destruct f as [|f]; [lia|]. reflexivity.
  - destruct k as [|k]; [lia|]. destruct k as [|k]; [lia|].
    destruct f as [|f]; [lia|]. destruct f as [|f]; [lia|].
    specialize (IH (S k) f ltac:(lia) ltac:(lia)).
    cbn [repeat_char] in IH |- *. cbn.
    replace (is_json_ws "[") with false by reflexivity. cbn. rewrite IH. reflexivity.
Qed.

Lemma loads_brackets env n :
  (max_depth env < n)%nat -> json_loads env (py_strip (repeat_char "["%char n)) = LoadsRaised.
Proof.
  intros H. rewrite py_strip_repeat_char by (intros l; reflexivity).
  destruct n as [|n]; [lia|].
  unfold json_loads. cbv zeta.
  change (skip_ws (repeat_char "[" (S n))) with (repeat_char "[" (S n)).
  rewrite (parse_brackets_raises env (max_depth env) (S n)); [reflexivity|exact H|].
  rewrite repeat_char_length. lia.
Qed.

Lemma span_digits_ones n : span_digits (repeat_char "1"%char n) = (repeat "1"%char n, EmptyString).
Proof. induction n as [|n IH]; [reflexivity|]. simpl. rewrite IH. reflexivity. Qed.

Lemma loads_ones env n :
  int_max_str_digits env <> 0 -> (int_max_str_digits env < n)%nat ->
  json_loads env (py_strip (repeat_char "1"%char n)) = LoadsRaised.
Proof.
  intros H0 H. rewrite py_strip_repeat_char by (intros l; reflexivity).
  assert (Hd : int_digits_ok env n = false).
  { unfold int_digits_ok. destruct (int_max_str_digits env) as [|L] eqn:E; [lia|].
    apply Nat.leb_gt. lia. }
  destruct n as [|n]; [lia|].
  unfold json_loads. cbv zeta.
  change (skip_ws (repeat_char "1" (S n))) with (repeat_char "1" (S n)).
  rewrite repeat_char_length.
  replace (2 * S n + 2) with (S (2 * n + 3)) by lia.
  change (parse_value env (S (2 * n + 3)) (max_depth env) (repeat_char "1" (S n)))
    with (parse_number env (repeat_char "1" (S n))).
  unfold parse_number. cbn [repeat_char]. simpl. rewrite span_digits_ones.
  simpl. rewrite repeat_length, Hd. reflexivity.
Qed.

(** the sample lines decode alike under every runtime *)

Lemma loads_created_line env : json_loads env (py_strip created_line) = Loaded created_event.
Proof. eval_runtime env. Qed.

(** ** Claims *)





(** C2. A non-zero exit code gives the process-failed outcome whatever the
    captured output is (it is never decoded): both scripts print the
    'Failed to get ... information' error and return 1. *)
Theorem nonzero_exit_is_process_failed :
  forall env rc out data_default,
    rc <> 0%Z ->
    command_response env data_default (mk_completed rc out) = RProcessFailed /\
    get_active_window env (Some (mk_completed rc out)) = ([ErrFailedToGet], 1%Z) /\
    get_workspaces env (Some (mk_completed rc out)) = ([ErrFailedToGet], 1%Z).
Proof.
  intros env rc out dd Hrc.
  assert (E : forall d, command_response env d (mk_completed rc out) = RProcessFailed).
  { intros d. unfold command_response; simpl.
    destruct (Z.eqb_spec rc 0); [contradiction | reflexivity]. }
  unfold get_active_window, get_workspaces. rewrite !E. repeat split; reflexivity.
Qed.

Lemma nonzero_exit_is_process_failed_witness :
  (1 <> 0)%Z /\ json_loads cpython311 bad_line = JSONDecodeError /\
  command_response cpython311 (JObj []) (mk_completed 1 bad_line) = RProcessFailed /\
  get_active_window cpython311 (Some (mk_completed 1 bad_line)) = ([ErrFailedToGet], 1%Z) /\
  get_workspaces cpython311 (Some (mk_completed 1 bad_line)) = ([ErrFailedToGet], 1%Z).
Proof.
  assert (H : (1 <> 0)%Z) by lia.
  split; [exact H|]. split; [vm_compute; reflexivity|].
  exact (nonzero_exit_is_process_failed cpython311 1 bad_line (JObj []) H).
Defined.

(** C3. Exit code 0 and an envelope with type "success" yield exactly its
    [data] value; type "error" yields the not-success outcome carrying the
    envelope's [message], which both scripts print before returning 1. *)
Theorem success_and_error_envelopes :
  forall env out kvs data_default,
    json_loads env out = Loaded (JObj kvs) ->
    (dict_lookup "type" kvs = Some (JStr "success") ->
     forall d, dict_lookup "data" kvs = Some d ->
     command_response env data_default (mk_completed 0 out) = RSuccess d) /\
    (dict_lookup "type" kvs = Some (JStr "error") ->
     forall m, dict_lookup "message" kvs = Some (JStr m) ->
     command_response env data_default (mk_completed 0 out) = RNotSuccess (JStr m) /\
     get_active_window env (Some (mk_completed 0 out)) = ([ErrMessage (JStr m)], 1%Z) /\
     get_workspaces env (Some (mk_completed 0 out)) = ([ErrMessage (JStr m)], 1%Z)).
Proof.
  intros env out kvs dd Hj. split.
  - intros Ht d Hd. rewrite (command_response_decoded_obj _ _ _ _ Hj).
    unfold get_or. rewrite Ht, Hd. reflexivity.
  - intros Ht m Hm.
    assert (E : forall d, command_response env d (mk_completed 0 out) = RNotSuccess (JStr m)).
    { intros d. rewrite (command_response_decoded_obj _ _ _ _ Hj).
      unfold get_or. rewrite Ht, Hm. reflexivity. }
    unfold get_active_window, get_workspaces. rewrite !E. repeat split; reflexivity.
Qed.

Lemma success_and_error_envelopes_witness :
  command_response cpython311 (JObj [])
      (mk_completed 0 (dq "{'type':'success','data':{'id':1}}")) =
    RSuccess (JObj [("id", JInt 1)]) /\
  get_workspaces cpython311
      (Some (mk_completed 0 (dq "{'type':'error','message':'no such workspace'}"))) =
    ([ErrMessage (JStr "no such workspace")], 1%Z).
Proof.
  split.
  - refine (proj1 (success_and_error_envelopes cpython311
                     (dq "{'type':'success','data':{'id':1}}")
                     [("type", JStr "success"); ("data", JObj [("id", JInt 1)])]
                     (JObj []) _) _ _ _); vm_compute; reflexivity.
  - refine (proj2 (proj2 (proj2 (success_and_error_envelopes cpython311
                     (dq "{'type':'error','message':'no such workspace'}")
                     [("type", JStr "error"); ("message", JStr "no such workspace")]
                     (JArr []) _) _ _ _))); vm_compute; reflexivity.
Defined.

(** C4 (as the code does it). Any type other than "success" (including
    "error", another value, or none) takes the same branch: the outcome
    carries [message] (or "Unknown error") and both scripts print it and
    return 1; there is no separate malformed-response outcome for it. *)
Theorem non_success_type_outcome :
  forall env out kvs data_default,
    json_loads env out = Loaded (JObj kvs) ->
    is_str (get_or kvs "type" JNull) "success" = false ->
    command_response env data_default (mk_completed 0 out) =
      RNotSuccess (get_or kvs "message" (JStr "Unknown error")) /\
    get_active_window env (Some (mk_completed 0 out)) =
      ([ErrMessage (get_or kvs "message" (JStr "Unknown error"))], 1%Z) /\
    get_workspaces env (Some (mk_completed 0 out)) =
      ([ErrMessage (get_or kvs "message" (JStr "Unknown error"))], 1%Z).
Proof.
  intros env out kvs dd Hj Ht.
  assert (E : forall d, command_response env d (mk_completed 0 out) =
                        RNotSuccess (get_or kvs "message" (JStr "Unknown error"))).
  { intros d. rewrite (command_response_decoded_obj _ _ _ _ Hj), Ht. reflexivity. }
  unfold get_active_window, get_workspaces. rewrite !E. repeat split; reflexivity.
Qed.

Lemma non_success_type_outcome_witness :
  command_response cpython311 (JObj []) (mk_completed 0 (dq "{'type':'weird','message':'m'}")) =
    RNotSuccess (JStr "m").
Proof.
  refine (proj1 (non_success_type_outcome cpython311 (dq "{'type':'weird','message':'m'}")
                   [("type", JStr "weird"); ("message", JStr "m")] (JObj []) _ _));
  vm_compute; reflexivity.
Defined.

(** the counterexample below, under every [runtime] *)
Lemma unknown_type_not_distinct_from_error_gen :
  forall env,
  let weird := mk_completed 0 (dq "{'type':'weird','message':'m'}") in
  let err := mk_completed 0 (dq "{'type':'error','message':'m'}") in
  let untyped := mk_completed 0 (dq "{'message':'m'}") in
  command_response env (JObj []) weird = RNotSuccess (JStr "m") /\
  command_response env (JObj []) err = RNotSuccess (JStr "m") /\
  command_response env (JObj []) untyped = RNotSuccess (JStr "m") /\
  get_active_window env (Some weird) = get_active_window env (Some err) /\
  get_workspaces env (Some weird) = get_workspaces env (Some err).
Proof. intros env. eval_runtime env. Qed.

(** C4 (counterexample). Under [cpython311] (and under every runtime, by the
    lemma above), an envelope of type "weird" gives exactly the outcome of an
    envelope of type "error" with the same message, in the query and in both
    scripts; an envelope without type does too. *)
Lemma unknown_type_not_distinct_from_error :
  let weird := mk_completed 0 (dq "{'type':'weird','message':'m'}") in
  let err := mk_completed 0 (dq "{'type':'error','message':'m'}") in
  let untyped := mk_completed 0 (dq "{'message':'m'}") in
  command_response cpython311 (JObj []) weird = RNotSuccess (JStr "m") /\
  command_response cpython311 (JObj []) err = RNotSuccess (JStr "m") /\
  command_response cpython311 (JObj []) untyped = RNotSuccess (JStr "m") /\
  get_active_window cpython311 (Some weird) = get_active_window cpython311 (Some err) /\
  get_workspaces cpython311 (Some weird) = get_workspaces cpython311 (Some err).
Proof. exact (unknown_type_not_distinct_from_error_gen cpython311). Qed.

(** C5 (as the code does it). Only [JSONDecodeError] is caught inside the
    loop. When the statements run for a decoded event raise (for instance
    [data] is [null] on a [window_created] event), the exception leaves the
    loop: the session prints 'Error: ...', returns 1, reads no further line and
    does not terminate the child. *)
Theorem handler_exception_ends_session :
  forall env (body : json -> option (list action)) prefix line ev rest,
    snd (event_loop env body prefix) = None ->
    json_loads env (py_strip line) = Loaded ev -> body ev = None ->
    session env body true (prefix ++ Line line :: rest) =
      (Banner :: fst (event_loop env body prefix) ++ [ErrorReport], Some 1%Z).
Proof.
  intros env body prefix line ev rest Hp Hj Hb. unfold session; cbn [negb].
  rewrite event_loop_app, (event_loop_raises _ _ _ _ _ Hj Hb).
  destruct (event_loop env body prefix) as [tr e]. cbn [snd] in Hp. subst e.
  rewrite app_nil_r. reflexivity.
Qed.

Lemma handler_exception_ends_session_witness :
  monitor_windows cpython311 true [Line created_line; Line null_data_line; Line closed_line] =
    ([Banner; WindowCreated (JStr "Notes") (JInt 2); ErrorReport], Some 1%Z).
Proof.
  exact (handler_exception_ends_session cpython311 (monitor_body cpython311)
           [Line created_line] null_data_line
           (JObj [("name", JStr "window_created"); ("data", JNull)]) [Line closed_line]
           eq_refl eq_refl eq_refl).
Defined.

(** the counterexample below, under every [runtime] *)
Lemma handler_exception_stops_stream_gen :
  forall env,
  monitor_windows env true [Line null_data_line; Line created_line] =
    ([Banner; ErrorReport], Some 1%Z) /\
  auto_tile env true [Line null_data_line; Line created_line] =
    ([Banner; ErrorReport], Some 1%Z).
Proof. intros env. eval_runtime env. Qed.

(** C5 (counterexample). Under [cpython311] (and under every runtime, by the
    lemma above), a [window_created] event with [data: null] raises in both
    scripts; the well-formed line after it is never dispatched and the session
    ends with status 1. *)
Lemma handler_exception_stops_stream :
  monitor_windows cpython311 true [Line null_data_line; Line created_line] =
    ([Banner; ErrorReport], Some 1%Z) /\
  auto_tile cpython311 true [Line null_data_line; Line created_line] =
    ([Banner; ErrorReport], Some 1%Z).
Proof. exact (handler_exception_stops_stream_gen cpython311). Qed.

(** C6 (as the code does it). A line that strips to the empty string (a
    whitespace-only line) reaches [json.loads('')], which raises; it is
    reported as a parse failure and the loop continues with the next line. *)
Theorem blank_line_reported_as_parse_failure :
  forall env (body : json -> option (list action)) line rest,
    py_strip line = EmptyString ->
    event_loop env body (Line line :: rest) =
      (ParseFailed :: fst (event_loop env body rest), snd (event_loop env body rest)).
Proof.
  intros env body line rest Hs. apply event_loop_undecodable. rewrite Hs. reflexivity.
Qed.

Lemma blank_line_reported_as_parse_failure_witness :
  event_loop cpython311 (monitor_body cpython311) [Line blank_line; Line created_line] =
    ([ParseFailed; WindowCreated (JStr "Notes") (JInt 2)], None).
Proof.
  exact (blank_line_reported_as_parse_failure cpython311 (monitor_body cpython311)
           blank_line [Line created_line] eq_refl).
Defined.

(** the counterexample below, under every [runtime] *)
Lemma blank_line_is_not_skipped_silently_gen :
  forall env,
  monitor_windows env true [Line created_line; Line blank_line; Line created_line] =
    ([Banner; WindowCreated (JStr "Notes") (JInt 2); ParseFailed;
      WindowCreated (JStr "Notes") (JInt 2)], None) /\
  auto_tile env true [Line created_line; Line blank_line; Line created_line] =
    ([Banner; NewWindow (JStr "Notes") (JInt 123) (JInt 2); ParseFailed;
      NewWindow (JStr "Notes") (JInt 123) (JInt 2)], None).
Proof. intros env. eval_runtime env. Qed.

(** C6 (counterexample). Under [cpython311] (and under every runtime, by the
    lemma above), a line of a space, a tab and a newline between two events
    produces a parse-failure report in both scripts. *)
Lemma blank_line_is_not_skipped_silently :
  monitor_windows cpython311 true [Line created_line; Line blank_line; Line created_line] =
    ([Banner; WindowCreated (JStr "Notes") (JInt 2); ParseFailed;
      WindowCreated (JStr "Notes") (JInt 2)], None) /\
  auto_tile cpython311 true [Line created_line; Line blank_line; Line created_line] =
    ([Banner; NewWindow (JStr "Notes") (JInt 123) (JInt 2); ParseFailed;
      NewWindow (JStr "Notes") (JInt 123) (JInt 2)], None).
Proof. exact (blank_line_is_not_skipped_silently_gen cpython311). Qed.

(** C7. Under every runtime, the sample [window_created] line selects the
    [window_created] branch of the monitor, which receives the event's [data]
    (hwnd 123, title "Notes", workspace 2) and prints title and workspace;
    the auto-tiler's handler prints title, hwnd and workspace. No default or
    other branch runs, and each decoded event runs exactly one branch of the
    monitor. *)
Theorem window_created_dispatch :
  forall env,
  json_loads env (py_strip created_line) = Loaded created_event /\
  monitor_select (event_name_of created_event) = BCreated /\
  monitor_body env created_event =
    monitor_dispatch env (JStr "window_created")
      (JObj [("hwnd", JInt 123); ("title", JStr "Notes"); ("workspace", JInt 2)]) /\
  monitor_body env created_event = Some [WindowCreated (JStr "Notes") (JInt 2)] /\
  auto_tile_body env created_event = Some [NewWindow (JStr "Notes") (JInt 123) (JInt 2)] /\
  (forall name data,
      match monitor_dispatch env name data with
      | Some outs => length outs = 1
      | None => True
      end).
Proof.
  intros env. split; [exact (loads_created_line env)|].
  repeat split; try reflexivity.
  intros name data. destruct (monitor_dispatch env name data) as [outs|] eqn:E; [|exact I].
  destruct (monitor_dispatch_inv _ _ _ _ E) as [a [-> _]]. reflexivity.
Qed.

(** C8. Absent fields read as the scripts' defaults: window hwnd, title,
    class, process_name and state "Unknown", workspace and monitor "?", rect
    coordinates 0 (also when [rect] itself is absent), workspace id and
    monitor "?", name "Unknown", window_count 0, active false; event fields
    title "Unknown" and workspace "?". The lines are printed one by one, each
    only if [sys.stdout] can encode it. The two-entry sample listing prints
    one active row with 3 windows and one inactive row with 0. *)
Theorem absent_fields_default :
  (forall env w r, get_or w "rect" (JObj []) = JObj r ->
     show_window env (JObj w) = print_lines env (window_field_lines w ++ rect_lines r)) /\
  window_field_lines [] ++ rect_lines [] =
    [WindowField "HWND" (JStr "Unknown"); WindowField "Title" (JStr "Unknown");
     WindowField "Class" (JStr "Unknown"); WindowField "Process" (JStr "Unknown");
     WindowField "Workspace" (JStr "?"); WindowField "Monitor" (JStr "?");
     WindowField "State" (JStr "Unknown");
     Position (JInt 0) (JInt 0); Size (JInt 0) (JInt 0)] /\
  (forall env,
     get_active_window env (Some (mk_completed 0 (dq "{'type':'success','data':{}}"))) =
       (ActiveWindowHeader :: window_field_lines [] ++ rect_lines [], 0%Z) /\
     get_active_window env (Some (mk_completed 0 (dq "{'type':'success'}"))) =
       (ActiveWindowHeader :: window_field_lines [] ++ rect_lines [], 0%Z)) /\
  (forall env kvs, print_workspaces env [JObj kvs] = print_lines env [workspace_row kvs]) /\
  workspace_row [] =
    WorkspaceRow false {| ws_id := JStr "?"; ws_name := JStr "Unknown"; ws_monitor := JStr "?";
                          ws_window_count := JInt 0; ws_active := JBool false |} /\
  (forall env kvs, monitor_dispatch env (JStr "window_created") (JObj kvs) =
     stdout_print env (WindowCreated (get_or kvs "title" (JStr "Unknown"))
                                     (get_or kvs "workspace" (JStr "?")))) /\
  (forall env kvs, on_window_created env (JObj kvs) =
     stdout_print env (NewWindow (get_or kvs "title" (JStr "Unknown")) (get_or kvs "hwnd" JNull)
                                 (get_or kvs "workspace" (JStr "?")))) /\
  (forall env, monitor_body env (JObj [("name", JStr "window_created")]) =
    Some [WindowCreated (JStr "Unknown") (JStr "?")]) /\
  (forall env, get_workspaces env (Some (mk_completed 0 workspace_listing)) =
    ([WorkspaceHeader;
      WorkspaceRow true {| ws_id := JInt 1; ws_name := JStr "main"; ws_monitor := JInt 0;
                           ws_window_count := JInt 3; ws_active := JBool true |};
      WorkspaceRow false {| ws_id := JInt 2; ws_name := JStr "side"; ws_monitor := JInt 1;
                            ws_window_count := JInt 0; ws_active := JBool false |}], 0%Z)).
Proof.
  split.
  { intros env w r Hr. rewrite show_window_obj, Hr. unfold print_lines.
    rewrite fold_right_app. reflexivity. }
  split; [reflexivity|].
  split; [intros env; eval_runtime env|].
  split; [intros env kvs; exact (print_workspaces_objects env [kvs] [])|].
  split; [reflexivity|].
  split; [intros env kvs; unfold monitor_dispatch; rewrite !py_get_obj; reflexivity|].
  split; [intros env kvs; unfold on_window_created; rewrite !py_get_obj; reflexivity|].
  split; [intros env; reflexivity|].
  intros env. eval_runtime env.
Qed.

Lemma absent_fields_default_witness :
  show_window cpython311 (JObj [("title", JStr "T")]) =
    print_lines cpython311 (window_field_lines [("title", JStr "T")] ++ rect_lines []).
Proof.
  exact (proj1 absent_fields_default cpython311 [("title", JStr "T")] [] eq_refl).
Defined.

(** C9. A Ctrl+C reaching a running session (after a prefix that raised
    nothing) ends it with 'Stopping ...', [proc.terminate()] and status 0,
    whatever lines would have followed; a session whose loop raised another
    exception ends with 'Error: ...' and status 1. *)
Theorem cancellation_terminates_child :
  forall env (body : json -> option (list action)) prefix rest,
    snd (event_loop env body prefix) = None ->
    session env body true (prefix ++ Interrupt :: rest) =
      (Banner :: fst (event_loop env body prefix) ++ [Stopping; Terminate], Some 0%Z) /\
    (forall items tr, event_loop env body items = (tr, Some OtherError) ->
       session env body true items = (Banner :: tr ++ [ErrorReport], Some 1%Z)) /\
    exit_status (Some 0%Z) <> exit_status (Some 1%Z).
Proof.
  intros env body prefix rest Hp. split; [|split].
  - unfold session; cbn [negb]. rewrite event_loop_app.
    destruct (event_loop env body prefix) as [tr e]. cbn [snd] in Hp. subst e.
    simpl. rewrite app_nil_r. reflexivity.
  - intros items tr H. unfold session; cbn [negb]. rewrite H. reflexivity.
  - simpl. discriminate.
Qed.

Lemma cancellation_terminates_child_witness :
  monitor_windows cpython311 true
    [Line created_line; Line bad_line; Interrupt; Line closed_line] =
    ([Banner; WindowCreated (JStr "Notes") (JInt 2); ParseFailed; Stopping; Terminate],
     Some 0%Z).
Proof.
  exact (proj1 (cancellation_terminates_child cpython311 (monitor_body cpython311)
                  [Line created_line; Line bad_line] [Line closed_line] eq_refl)).
Defined.

(** C10. A decoded event object whose name is absent or selects no branch
    does not raise in the auto-tiler, which skips it and goes on with the
    next line. The monitor prints it through its default branch (name
    "unknown" when absent) and goes on, when [sys.stdout] can encode the
    name; when it cannot, that [print] raises and the loop stops. *)
Theorem unregistered_event_not_an_error :
  forall env line kvs rest,
    json_loads env (py_strip line) = Loaded (JObj kvs) ->
    (monitor_select (get_or kvs "name" (JStr "unknown")) = BDefault ->
     event_loop env (monitor_body env) (Line line :: rest) =
       if py_str_encodes env (get_or kvs "name" (JStr "unknown")) then
         (UnknownEvent (get_or kvs "name" (JStr "unknown"))
            :: fst (event_loop env (monitor_body env) rest),
          snd (event_loop env (monitor_body env) rest))
       else ([], Some OtherError)) /\
    (dict_lookup "name" kvs = None ->
     monitor_body env (JObj kvs) = Some [UnknownEvent (JStr "unknown")]) /\
    (is_str (get_or kvs "name" JNull) "window_created" = false ->
     event_loop env (auto_tile_body env) (Line line :: rest) =
       event_loop env (auto_tile_body env) rest).
Proof.
  intros env line kvs rest Hj. split; [|split].
  - intros Hs.
    assert (B : monitor_body env (JObj kvs) =
                stdout_print env (UnknownEvent (get_or kvs "name" (JStr "unknown")))).
    { unfold monitor_body. rewrite !py_get_obj. lazy beta iota.
      unfold monitor_dispatch. rewrite Hs. reflexivity. }
    unfold stdout_print in B. cbn [action_encodes] in B. revert B.
    destruct (py_str_encodes env (get_or kvs "name" (JStr "unknown"))); intros B.
    + exact (event_loop_decoded _ _ _ _ _ _ Hj B).
    + exact (event_loop_raises _ _ _ _ _ Hj B).
  - intros Hn. unfold monitor_body. rewrite !py_get_obj.
    unfold get_or at 1. rewrite Hn. reflexivity.
  - intros Hs. rewrite (event_loop_decoded _ _ _ _ [] _ Hj).
    + destruct (event_loop env (auto_tile_body env) rest); reflexivity.
    + unfold auto_tile_body. rewrite py_get_obj, Hs. reflexivity.
Qed.

Lemma unregistered_event_not_an_error_witness :
  event_loop cpython311 (monitor_body cpython311)
    [Line (dq "{'name':'workspace_changed'}"); Line created_line] =
    ([UnknownEvent (JStr "workspace_changed"); WindowCreated (JStr "Notes") (JInt 2)], None) /\
  event_loop cpython311 (auto_tile_body cpython311) [Line (dq "{'data':{}}"); Line created_line] =
    event_loop cpython311 (auto_tile_body cpython311) [Line created_line].
Proof.
  split.
  - exact (proj1 (unregistered_event_not_an_error cpython311 (dq "{'name':'workspace_changed'}")
                    [("name", JStr "workspace_changed")] [Line created_line] eq_refl) eq_refl).
  - exact (proj2 (proj2 (unregistered_event_not_an_error cpython311 (dq "{'data':{}}")
                    [("data", JObj [])] [Line created_line] eq_refl)) eq_refl).
Defined.

(** the counterexample below, under every [runtime] *)
Lemma unencodable_event_name_stops_monitor_gen :
  forall env,
    monitor_windows env true [Line surrogate_name_line; Line created_line] =
      ([Banner; ErrorReport], Some 1%Z) /\
    auto_tile env true [Line surrogate_name_line; Line created_line] =
      ([Banner; NewWindow (JStr "Notes") (JInt 123) (JInt 2)], None).
Proof. intros env. eval_runtime env. Qed.

(** C10 (counterexample). Under [cpython311] (and under every runtime, by the
    lemma above), an event named by the lone surrogate [\ud800] takes the
    monitor's default branch, whose [print] raises [UnicodeEncodeError]: the
    monitor ends with 'Error: ...' and status 1 without dispatching the next
    event, while the auto-tiler skips the event and goes on. *)
Lemma unencodable_event_name_stops_monitor :
  monitor_windows cpython311 true [Line surrogate_name_line; Line created_line] =
      ([Banner; ErrorReport], Some 1%Z) /\
    auto_tile cpython311 true [Line surrogate_name_line; Line created_line] =
      ([Banner; NewWindow (JStr "Notes") (JInt 123) (JInt 2)], None).
Proof. exact (unencodable_event_name_stops_monitor_gen cpython311). Qed.

(** ** Further properties of the scripts *)

(** X1. A success envelope whose [data] is a list of objects (or is absent)
    prints the header and then one row per entry, in order, with each row's
    status the truthiness of [active]; [get_workspaces] returns 0 when
    [sys.stdout] encodes every row. Otherwise the rows before the first one
    it cannot encode are printed, then 'Error: ...', and it returns 1. *)
Theorem workspaces_rows_in_order :
  forall env out kvs wl,
    json_loads env out = Loaded (JObj kvs) ->
    is_str (get_or kvs "type" JNull) "success" = true ->
    get_or kvs "data" (JArr []) = JArr (map JObj wl) ->
    get_workspaces env (Some (mk_completed 0 out)) =
      if forallb (report_encodes env) (map workspace_row wl)
      then (WorkspaceHeader :: map workspace_row wl, 0%Z)
      else (WorkspaceHeader :: printed_prefix env (map workspace_row wl) ++ [ErrOther], 1%Z).
Proof.
  intros env out kvs wl Hj Ht Hd. unfold get_workspaces.
  rewrite (command_response_decoded_obj _ _ _ _ Hj), Ht, Hd. cbn [py_iter].
  rewrite <- (app_nil_r (map JObj wl)), print_workspaces_objects.
  change (print_workspaces env []) with (@nil report, false).
  rewrite fold_print_then, app_nil_r.
  destruct (forallb (report_encodes env) (map workspace_row wl)); reflexivity.
Qed.

Lemma workspaces_rows_in_order_witness :
  get_workspaces cpython311
    (Some (mk_completed 0 (dq "{'type':'success','data':[{'id':1},{'name':'\ud800'},{'id':3}]}"))) =
    ([WorkspaceHeader; workspace_row [("id", JInt 1)]; ErrOther], 1%Z).
Proof.
  exact (workspaces_rows_in_order cpython311
           (dq "{'type':'success','data':[{'id':1},{'name':'\ud800'},{'id':3}]}")
           [("type", JStr "success");
            ("data", JArr [JObj [("id", JInt 1)]; JObj [("name", JStr lone_surrogate)];
                           JObj [("id", JInt 3)]])]
           [[("id", JInt 1)]; [("name", JStr lone_surrogate)]; [("id", JInt 3)]]
           eq_refl eq_refl eq_refl).
Defined.

(** X2. If an entry of the workspace list is not an object, the rows of the
    entries before it are printed (up to the first one [sys.stdout] cannot
    encode), then the error, and [get_workspaces] returns 1; later entries
    are not printed. *)
Theorem workspaces_partial_output_on_bad_entry :
  forall env out kvs wl bad rest,
    json_loads env out = Loaded (JObj kvs) ->
    is_str (get_or kvs "type" JNull) "success" = true ->
    get_or kvs "data" (JArr []) = JArr (map JObj wl ++ bad :: rest) ->
    is_object bad = false ->
    get_workspaces env (Some (mk_completed 0 out)) =
      (WorkspaceHeader :: printed_prefix env (map workspace_row wl) ++ [ErrOther], 1%Z).
Proof.
  intros env out kvs wl bad rest Hj Ht Hd Hb. unfold get_workspaces.
  rewrite (command_response_decoded_obj _ _ _ _ Hj), Ht, Hd. cbn [py_iter].
  rewrite print_workspaces_objects.
  replace (print_workspaces env (bad :: rest)) with (@nil report, true)
    by (destruct bad; try discriminate; reflexivity).
  rewrite fold_print_then_raised. reflexivity.
Qed.

Lemma workspaces_partial_output_on_bad_entry_witness :
  get_workspaces cpython311
    (Some (mk_completed 0 (dq "{'type':'success','data':[{'id':1},7,{'id':2}]}"))) =
    ([WorkspaceHeader; workspace_row [("id", JInt 1)]; ErrOther], 1%Z).
Proof.
  exact (workspaces_partial_output_on_bad_entry cpython311
           (dq "{'type':'success','data':[{'id':1},7,{'id':2}]}")
           [("type", JStr "success");
            ("data", JArr [JObj [("id", JInt 1)]; JInt 7; JObj [("id", JInt 2)]])]
           [[("id", JInt 1)]] (JInt 7) [JObj [("id", JInt 2)]]
           eq_refl eq_refl eq_refl eq_refl).
Defined.

(** X3. When [data] of a success envelope is not a list, the loop iterates
    it as Python does: an empty object or empty string prints only the header
    and returns 0; a non-empty object (its keys are strings) or string, or a
    non-iterable value (null, boolean, number), prints the header and the
    error and returns 1. *)
Theorem workspaces_non_list_data :
  forall env out kvs d,
    json_loads env out = Loaded (JObj kvs) ->
    is_str (get_or kvs "type" JNull) "success" = true ->
    get_or kvs "data" (JArr []) = d ->
    (forall l, d <> JArr l) ->
    get_workspaces env (Some (mk_completed 0 out)) =
      match d with
      | JObj [] => ([WorkspaceHeader], 0%Z)
      | JStr s => if String.eqb s "" then ([WorkspaceHeader], 0%Z)
                  else ([WorkspaceHeader; ErrOther], 1%Z)
      | _ => ([WorkspaceHeader; ErrOther], 1%Z)
      end.
Proof.
  intros env out kvs d Hj Ht Hd Hl. unfold get_workspaces.
  rewrite (command_response_decoded_obj _ _ _ _ Hj), Ht, Hd.
  destruct d as [| | | | |s|l|[|[k v] kvs']]; try reflexivity.
  - destruct s as [|c s]; reflexivity.
  - exfalso. exact (Hl l eq_refl).
Qed.

Lemma workspaces_non_list_data_witness :
  get_workspaces cpython311 (Some (mk_completed 0 (dq "{'type':'success','data':{'id':1}}"))) =
    ([WorkspaceHeader; ErrOther], 1%Z).
Proof.
  exact (workspaces_non_list_data cpython311 (dq "{'type':'success','data':{'id':1}}")
           [("type", JStr "success"); ("data", JObj [("id", JInt 1)])]
           (JObj [("id", JInt 1)]) eq_refl eq_refl eq_refl
           (fun l H => ltac:(discriminate H))).
Defined.

(** X4. A success envelope whose [data] is an object with a [rect] that is an
    object or absent prints the header, the seven fields (with their
    defaults), position and size (0 for absent coordinates), and
    [get_active_window] returns 0, when [sys.stdout] encodes every line.
    Otherwise the lines before the first one it cannot encode are printed,
    then 'Error: ...', and it returns 1. *)
Theorem active_window_full_output :
  forall env out kvs w r,
    json_loads env out = Loaded (JObj kvs) ->
    is_str (get_or kvs "type" JNull) "success" = true ->
    get_or kvs "data" (JObj []) = JObj w ->
    get_or w "rect" (JObj []) = JObj r ->
    get_active_window env (Some (mk_completed 0 out)) =
      if forallb (report_encodes env) (window_field_lines w ++ rect_lines r)
      then (ActiveWindowHeader :: window_field_lines w ++ rect_lines r, 0%Z)
      else (ActiveWindowHeader :: printed_prefix env (window_field_lines w ++ rect_lines r)
              ++ [ErrOther], 1%Z).
Proof.
  intros env out kvs w r Hj Ht Hd Hr. unfold get_active_window.
  rewrite (command_response_decoded_obj _ _ _ _ Hj), Ht, Hd. lazy beta iota.
  rewrite show_window_obj, Hr. lazy beta iota.
  unfold print_lines. rewrite <- fold_right_app, fold_print_then, app_nil_r.
  destruct (forallb (report_encodes env) (window_field_lines w ++ rect_lines r)); reflexivity.
Qed.

Lemma active_window_full_output_witness :
  get_active_window cpython311
    (Some (mk_completed 0 (dq "{'type':'success','data':{'title':'\ud800'}}"))) =
    ([ActiveWindowHeader; WindowField "HWND" (JStr "Unknown"); ErrOther], 1%Z).
Proof.
  exact (active_window_full_output cpython311
           (dq "{'type':'success','data':{'title':'\ud800'}}")
           [("type", JStr "success"); ("data", JObj [("title", JStr lone_surrogate)])]
           [("title", JStr lone_surrogate)] [] eq_refl eq_refl eq_refl eq_refl).
Defined.

(** X5. A success envelope whose [data] is present but not an object (null, a
    list, ...) prints only the header before the error; [get_active_window]
    returns 1. *)
Theorem active_window_non_object_data :
  forall env out kvs,
    json_loads env out = Loaded (JObj kvs) ->
    is_str (get_or kvs "type" JNull) "success" = true ->
    is_object (get_or kvs "data" (JObj [])) = false ->
    get_active_window env (Some (mk_completed 0 out)) = ([ActiveWindowHeader; ErrOther], 1%Z).
Proof.
  intros env out kvs Hj Ht Hd. unfold get_active_window.
  rewrite (command_response_decoded_obj _ _ _ _ Hj), Ht.
  destruct (get_or kvs "data" (JObj [])); try discriminate; reflexivity.
Qed.

Lemma active_window_non_object_data_witness :
  get_active_window cpython311 (Some (mk_completed 0 (dq "{'type':'success','data':null}"))) =
    ([ActiveWindowHeader; ErrOther], 1%Z).
Proof.
  exact (active_window_non_object_data cpython311 (dq "{'type':'success','data':null}")
           [("type", JStr "success"); ("data", JNull)] eq_refl eq_refl eq_refl).
Defined.

(** X6. A window object whose [rect] is present but not an object gets its
    field lines printed (up to the first one [sys.stdout] cannot encode),
    then the error instead of position and size; [get_active_window]
    returns 1. *)
Theorem active_window_bad_rect :
  forall env out kvs w,
    json_loads env out = Loaded (JObj kvs) ->
    is_str (get_or kvs "type" JNull) "success" = true ->
    get_or kvs "data" (JObj []) = JObj w ->
    is_object (get_or w "rect" (JObj [])) = false ->
    get_active_window env (Some (mk_completed 0 out)) =
      (ActiveWindowHeader :: printed_prefix env (window_field_lines w) ++ [ErrOther], 1%Z).
Proof.
  intros env out kvs w Hj Ht Hd Hr. unfold get_active_window.
  rewrite (command_response_decoded_obj _ _ _ _ Hj), Ht, Hd. lazy beta iota.
  rewrite show_window_obj.
  destruct (get_or w "rect" (JObj [])); try discriminate; lazy beta iota;
  rewrite fold_print_then_raised; reflexivity.
Qed.

Lemma active_window_bad_rect_witness :
  get_active_window cpython311
    (Some (mk_completed 0 (dq "{'type':'success','data':{'rect':[1,2]}}"))) =
    (ActiveWindowHeader :: window_field_lines [("rect", JArr [JInt 1; JInt 2])] ++ [ErrOther],
     1%Z).
Proof.
  exact (active_window_bad_rect cpython311 (dq "{'type':'success','data':{'rect':[1,2]}}")
           [("type", JStr "success"); ("data", JObj [("rect", JArr [JInt 1; JInt 2])])]
           [("rect", JArr [JInt 1; JInt 2])] eq_refl eq_refl eq_refl eq_refl).
Defined.

(** X7. With exit code 0, output on which [json.loads] raises
    [JSONDecodeError] (for instance an empty output) makes both command
    scripts print 'Error parsing response' and return 1; output on which it
    raises another exception ([RecursionError], [ValueError]) makes them
    print 'Error: ...' and return 1. *)
Theorem command_undecodable_output :
  forall env out,
    (json_loads env out = JSONDecodeError ->
     get_active_window env (Some (mk_completed 0 out)) = ([ErrParsing], 1%Z) /\
     get_workspaces env (Some (mk_completed 0 out)) = ([ErrParsing], 1%Z)) /\
    (json_loads env out = LoadsRaised ->
     get_active_window env (Some (mk_completed 0 out)) = ([ErrOther], 1%Z) /\
     get_workspaces env (Some (mk_completed 0 out)) = ([ErrOther], 1%Z)).
Proof.
  intros env out. unfold get_active_window, get_workspaces, command_response.
  cbn [returncode stdout mk_completed Z.eqb negb].
  split; intros Hj; rewrite Hj; split; reflexivity.
Qed.

Lemma command_undecodable_output_witness :
  get_active_window cpython311 (Some (mk_completed 0 "")) = ([ErrParsing], 1%Z) /\
  get_workspaces cpython311 (Some (mk_completed 0 (repeat_char "["%char 995))) =
    ([ErrOther], 1%Z).
Proof.
  split.
  - exact (proj1 (proj1 (command_undecodable_output cpython311 "") eq_refl)).
  - assert (H : json_loads cpython311 (repeat_char "["%char 995) = LoadsRaised)
      by (vm_compute; reflexivity).
    exact (proj2 (proj2 (command_undecodable_output cpython311 (repeat_char "["%char 995)) H)).
Defined.

(** X8. With exit code 0, output that decodes to a JSON value other than an
    object (a list, string, number, ...) makes [response.get] raise: both
    command scripts print 'Error: ...' and return 1. *)
Theorem command_non_object_response :
  forall env out v,
    json_loads env out = Loaded v -> is_object v = false ->
    get_active_window env (Some (mk_completed 0 out)) = ([ErrOther], 1%Z) /\
    get_workspaces env (Some (mk_completed 0 out)) = ([ErrOther], 1%Z).
Proof.
  intros env out v Hj Hv. unfold get_active_window, get_workspaces, command_response.
  cbn [returncode stdout mk_completed Z.eqb negb]. rewrite Hj.
  destruct v; try discriminate; split; reflexivity.
Qed.

Lemma command_non_object_response_witness :
  get_active_window cpython311 (Some (mk_completed 0 "[]")) = ([ErrOther], 1%Z) /\
  get_workspaces cpython311 (Some (mk_completed 0 "[]")) = ([ErrOther], 1%Z).
Proof. exact (command_non_object_response cpython311 "[]" (JArr []) eq_refl eq_refl). Defined.

(** X9. Both command scripts return 0 only when the tool ran, exited with 0,
    and printed an object whose [type] is "success". *)
Theorem command_exit_zero_requires_success :
  forall env r,
    (snd (get_active_window env (Some r)) = 0%Z \/ snd (get_workspaces env (Some r)) = 0%Z) ->
    returncode r = 0%Z /\
    exists kvs, json_loads env (stdout r) = Loaded (JObj kvs) /\
                is_str (get_or kvs "type" JNull) "success" = true.
Proof.
  intros env [rc out] H. cbn [returncode stdout].
  destruct (Z.eqb_spec rc 0) as [->|Hrc].
  - split; [reflexivity|].
    destruct (json_loads env out) as [v| |] eqn:Hj.
    + destruct v as [| | | | | | |kvs];
        try (destruct (command_non_object_gen env out _ Hj eq_refl) as [A W];
             unfold mk_completed in A, W; rewrite A, W in H; destruct H; discriminate).
      exists kvs. split; [reflexivity|].
      destruct (is_str (get_or kvs "type" JNull) "success") eqn:Ht; [reflexivity|].
      exfalso. unfold get_active_window, get_workspaces in H. fold (mk_completed 0 out) in H.
      rewrite (command_response_decoded_obj env (JObj []) _ _ Hj),
              (command_response_decoded_obj env (JArr []) _ _ Hj), Ht in H.
      destruct H as [H|H]; discriminate.
    + destruct (proj1 (command_loads_failed env out) Hj) as [A W].
      unfold mk_completed in A, W. rewrite A, W in H. destruct H; discriminate.
    + destruct (proj2 (command_loads_failed env out) Hj) as [A W].
      unfold mk_completed in A, W. rewrite A, W in H. destruct H; discriminate.
  - exfalso.
    destruct (nonzero_exit_is_process_failed_gen env rc out Hrc) as [A W].
    unfold mk_completed in A, W. rewrite A, W in H. destruct H; discriminate.
Qed.

Lemma command_exit_zero_requires_success_witness :
  returncode (mk_completed 0 (dq "{'type':'success'}")) = 0%Z /\
  exists kvs, json_loads cpython311 (stdout (mk_completed 0 (dq "{'type':'success'}"))) =
                Loaded (JObj kvs) /\
              is_str (get_or kvs "type" JNull) "success" = true.
Proof.
  apply (command_exit_zero_requires_success cpython311 (mk_completed 0 (dq "{'type':'success'}"))).
  right. vm_compute. reflexivity.
Defined.

Lemma filter_dispatch_only_parse (outs : list action) :
  forallb is_dispatch outs = true -> filter is_parse_failed outs = [].
Proof.
  induction outs as [|a outs IH]; [reflexivity|].
  cbn [forallb filter]. intros H. apply andb_prop in H as [Ha H].
  destruct a; try discriminate; apply IH; exact H.
Qed.

Lemma parse_failures_count_gen env body :
  dispatch_only body ->
  forall items, snd (event_loop env body items) = None ->
  length (filter is_parse_failed (fst (event_loop env body items))) =
  length (filter (line_undecodable env) items).
Proof.
  intros Hb items. induction items as [|[l|] rest IH]; intros Hs.
  - reflexivity.
  - cbn [filter]. unfold line_undecodable at 1.
    destruct (json_loads env (py_strip l)) as [ev| |] eqn:Hj.
    + destruct (body ev) as [outs|] eqn:Ho.
      * rewrite (event_loop_decoded _ _ _ _ _ _ Hj Ho) in Hs |- *. cbn [fst snd] in Hs |- *.
        rewrite filter_app, length_app, (filter_dispatch_only_parse _ (Hb _ _ Ho)).
        exact (IH Hs).
      * rewrite (event_loop_raises _ _ _ _ _ Hj Ho) in Hs. discriminate.
    + rewrite (event_loop_undecodable _ _ _ _ Hj) in Hs |- *. cbn [fst snd] in Hs |- *.
      cbn [filter is_parse_failed length]. rewrite (IH Hs). reflexivity.
    + rewrite (event_loop_loads_raises _ _ _ _ Hj) in Hs. discriminate.
  - discriminate.
Qed.

(** X10. When the loop ends without an exception, the number of
    'Failed to parse event' reports equals the number of lines on which
    [json.loads(line.strip())] raises [JSONDecodeError], in both streaming
    scripts. *)
Theorem parse_failures_match_undecodable_lines :
  forall env items,
    (snd (event_loop env (monitor_body env) items) = None ->
     length (filter is_parse_failed (fst (event_loop env (monitor_body env) items))) =
     length (filter (line_undecodable env) items)) /\
    (snd (event_loop env (auto_tile_body env) items) = None ->
     length (filter is_parse_failed (fst (event_loop env (auto_tile_body env) items))) =
     length (filter (line_undecodable env) items)).
Proof.
  intros env items. split.
  - apply parse_failures_count_gen. exact (monitor_body_dispatch_only env).
  - apply parse_failures_count_gen. exact (auto_tile_body_dispatch_only env).
Qed.

Lemma parse_failures_match_undecodable_lines_witness :
  length (filter is_parse_failed
            (fst (event_loop cpython311 (monitor_body cpython311)
                    [Line bad_line; Line created_line; Line blank_line]))) = 2.
Proof.
  exact (proj1 (parse_failures_match_undecodable_lines cpython311
                  [Line bad_line; Line created_line; Line blank_line]) eq_refl).
Defined.

(** X11. When the monitor's loop ends without an exception, it has printed
    exactly one line per input line: one event line for each decoded event
    and one parse failure for each other line. *)
Theorem monitor_one_output_per_line :
  forall env items,
    snd (event_loop env (monitor_body env) items) = None ->
    length (fst (event_loop env (monitor_body env) items)) = length items.
Proof.
  intros env. induction items as [|[l|] rest IH]; intros Hs.
  - reflexivity.
  - destruct (json_loads env (py_strip l)) as [ev| |] eqn:Hj.
    + destruct (monitor_body env ev) as [outs|] eqn:Ho.
      * rewrite (event_loop_decoded _ _ _ _ _ _ Hj Ho) in Hs |- *. cbn [fst snd] in Hs |- *.
        rewrite length_app, (monitor_body_one_action _ _ _ Ho), (IH Hs). reflexivity.
      * rewrite (event_loop_raises _ _ _ _ _ Hj Ho) in Hs. discriminate.
    + rewrite (event_loop_undecodable _ _ _ _ Hj) in Hs |- *. cbn [fst snd] in Hs |- *.
      cbn [length]. rewrite (IH Hs). reflexivity.
    + rewrite (event_loop_loads_raises _ _ _ _ Hj) in Hs. discriminate.
  - discriminate.
Qed.

Lemma monitor_one_output_per_line_witness :
  length (fst (event_loop cpython311 (monitor_body cpython311)
                 [Line bad_line; Line created_line; Line closed_line])) = 3.
Proof.
  exact (monitor_one_output_per_line cpython311
           [Line bad_line; Line created_line; Line closed_line] eq_refl).
Defined.

(** X12. When the auto-tiler's loop ends without an exception, it has
    printed one 'New window' line per input line that decodes to an event
    named "window_created", and none for any other line. *)
Theorem auto_tile_one_report_per_created_event :
  forall env items,
    snd (event_loop env (auto_tile_body env) items) = None ->
    length (filter is_new_window (fst (event_loop env (auto_tile_body env) items))) =
    length (filter (line_created_event env) items).
Proof.
  intros env. induction items as [|[l|] rest IH]; intros Hs.
  - reflexivity.
  - cbn [filter]. unfold line_created_event at 1.
    destruct (json_loads env (py_strip l)) as [ev| |] eqn:Hj.
    + destruct (auto_tile_body env ev) as [outs|] eqn:Ho.
      * rewrite (event_loop_decoded _ _ _ _ _ _ Hj Ho) in Hs |- *. cbn [fst snd] in Hs |- *.
        rewrite filter_app, length_app, (proj2 (auto_tile_body_new_windows _ _ _ Ho)), (IH Hs).
        destruct (is_str _ _); reflexivity.
      * rewrite (event_loop_raises _ _ _ _ _ Hj Ho) in Hs. discriminate.
    + rewrite (event_loop_undecodable _ _ _ _ Hj) in Hs |- *. cbn [fst snd] in Hs |- *.
      exact (IH Hs).
    + rewrite (event_loop_loads_raises _ _ _ _ Hj) in Hs. discriminate.
  - discriminate.
Qed.

Lemma auto_tile_one_report_per_created_event_witness :
  length (filter is_new_window
            (fst (event_loop cpython311 (auto_tile_body cpython311)
                    [Line created_line; Line closed_line; Line created_line]))) = 2.
Proof.
  exact (auto_tile_one_report_per_created_event cpython311
           [Line created_line; Line closed_line; Line created_line] eq_refl).
Defined.

Lemma event_loop_outputs env body :
  dispatch_only body ->
  forall items,
    forallb (fun a => is_dispatch a || is_parse_failed a) (fst (event_loop env body items)) = true.
Proof.
  intros Hb items. induction items as [|[l|] rest IH]; [reflexivity| |reflexivity].
  destruct (json_loads env (py_strip l)) as [ev| |] eqn:Hj.
  - destruct (body ev) as [outs|] eqn:Ho.
    + rewrite (event_loop_decoded _ _ _ _ _ _ Hj Ho). cbn [fst].
      rewrite forallb_app, IH, andb_true_r.
      apply forallb_forall. intros a Ha.
      rewrite (proj1 (forallb_forall _ _) (Hb _ _ Ho) a Ha). reflexivity.
    + rewrite (event_loop_raises _ _ _ _ _ Hj Ho). reflexivity.
  - rewrite (event_loop_undecodable _ _ _ _ Hj). cbn [fst forallb]. rewrite IH. reflexivity.
  - rewrite (event_loop_loads_raises _ _ _ _ Hj). reflexivity.
Qed.

Lemma no_terminate_in_loop env body :
  dispatch_only body -> forall items, ~ In Terminate (fst (event_loop env body items)).
Proof.
  intros Hb items Hin.
  pose proof (proj1 (forallb_forall _ _) (event_loop_outputs env body Hb items) _ Hin).
  discriminate.
Qed.

Lemma terminate_iff_cancelled_gen env body :
  dispatch_only body ->
  forall spawned items,
    In Terminate (fst (session env body spawned items)) <->
    snd (session env body spawned items) = Some 0%Z.
Proof.
  intros Hb spawned items. pose proof (no_terminate_in_loop env body Hb items) as Hn.
  destruct spawned; unfold session; cbn [negb].
  - destruct (event_loop env body items) as [tr [[|]|]]; cbn [fst snd] in Hn |- *.
    + split; [reflexivity|]. intros _. right. apply in_or_app. right. right. left. reflexivity.
    + split; [|discriminate]. intros [H|H]; [discriminate|].
      apply in_app_or in H as [H|[H|[]]]; [contradiction|discriminate].
    + split; [|discriminate]. intros [H|H]; [discriminate|contradiction].
  - cbn. split; [intros [H|[H|[]]]; discriminate | discriminate].
Qed.

(** X13. A streaming script calls [proc.terminate()] exactly when it
    returns the cancellation status 0 after Ctrl+C: it never terminates the
    child at end of stream, on an exception, or when the launch failed. *)
Theorem terminate_only_on_cancel :
  forall env spawned items,
    (In Terminate (fst (monitor_windows env spawned items)) <->
     snd (monitor_windows env spawned items) = Some 0%Z) /\
    (In Terminate (fst (auto_tile env spawned items)) <->
     snd (auto_tile env spawned items) = Some 0%Z).
Proof.
  intros env spawned items. split.
  - exact (terminate_iff_cancelled_gen env _ (monitor_body_dispatch_only env) spawned items).
  - exact (terminate_iff_cancelled_gen env _ (auto_tile_body_dispatch_only env) spawned items).
Qed.

Lemma terminate_only_on_cancel_witness :
  ~ In Terminate (fst (monitor_windows cpython311 true [Line null_data_line])).
Proof.
  intros H.
  apply (proj1 (proj1 (terminate_only_on_cancel cpython311 true [Line null_data_line]))) in H.
  vm_compute in H. discriminate.
Defined.

Lemma clean_stream_gen env body :
  (forall ev, well_formed_event ev -> json_prints env ev = true ->
              exists outs, body ev = Some outs) ->
  forall items,
    Forall (fun i => exists l, i = Line l /\
              match json_loads env (py_strip l) with
              | JSONDecodeError => True
              | Loaded ev => well_formed_event ev /\ json_prints env ev = true
              | LoadsRaised => False
              end) items ->
    snd (session env body true items) = None.
Proof.
  intros Hb items Hall. unfold session; cbn [negb].
  assert (E : snd (event_loop env body items) = None).
  { induction Hall as [|i rest [l [-> Hl]] _ IH]; [reflexivity|].
    destruct (json_loads env (py_strip l)) as [ev| |] eqn:Hj.
    - destruct Hl as [W P]. destruct (Hb ev W P) as [outs Ho].
      rewrite (event_loop_decoded _ _ _ _ _ _ Hj Ho). exact IH.
    - rewrite (event_loop_undecodable _ _ _ _ Hj). exact IH.
    - contradiction. }
  destruct (event_loop env body items) as [tr e]. cbn [snd] in E. subst e. reflexivity.
Qed.

(** X14. A stream whose lines are all either rejected by [json.loads] with
    [JSONDecodeError] or well-formed events (an object whose [data], if
    present, is an object) whose strings [sys.stdout] can encode, with no
    Ctrl+C, runs to its end in both scripts: the function falls off its end
    and returns [None], so the script exits with status 0. *)
Theorem clean_stream_runs_to_end :
  forall env items,
    Forall (fun i => exists l, i = Line l /\
              match json_loads env (py_strip l) with
              | JSONDecodeError => True
              | Loaded ev => well_formed_event ev /\ json_prints env ev = true
              | LoadsRaised => False
              end) items ->
    snd (monitor_windows env true items) = None /\
    snd (auto_tile env true items) = None /\
    exit_status (snd (monitor_windows env true items)) = 0%Z /\
    exit_status (snd (auto_tile env true items)) = 0%Z.
Proof.
  intros env items Hall.
  assert (M : snd (monitor_windows env true items) = None).
  { apply clean_stream_gen; [|exact Hall].
    intros ev W P. destruct (monitor_body_well_formed env ev W P) as [a [H _]]. eauto. }
  assert (A : snd (auto_tile env true items) = None).
  { apply clean_stream_gen; [|exact Hall].
    intros ev W P. destruct (auto_tile_body_well_formed env ev W P) as [o [H _]]. eauto. }
  rewrite M, A. repeat split; reflexivity.
Qed.

Lemma clean_stream_runs_to_end_witness :
  snd (monitor_windows cpython311 true [Line created_line; Line bad_line]) = None.
Proof.
  refine (proj1 (clean_stream_runs_to_end cpython311 [Line created_line; Line bad_line] _)).
  constructor.
  - exists created_line. split; [reflexivity|].
    vm_compute. split; [eexists; split; [reflexivity | exact I] | reflexivity].
  - constructor; [|constructor]. exists bad_line. split; [reflexivity|].
    vm_compute. exact I.
Defined.

(** X15. For an event whose strings [sys.stdout] can encode, the monitor's
    statements raise exactly when the event is not an object, or when its
    name selects the window_created, window_closed or window_focused branch
    and its [data] value (when present) is not an object; the default branch
    never raises. *)
Theorem monitor_body_raises_iff :
  forall env ev,
    json_prints env ev = true ->
    (monitor_body env ev = None <->
     match ev with
     | JObj kvs =>
         monitor_select (get_or kvs "name" (JStr "unknown")) <> BDefault /\
         is_object (get_or kvs "data" (JObj [])) = false
     | _ => True
     end).
Proof.
  intros env ev Hp.
  destruct ev as [| | | | | | |kvs]; try (split; [intros _; exact I | intros _; reflexivity]).
  assert (Pd : forall d, get_or kvs "data" (JObj []) = JObj d -> json_prints env (JObj d) = true).
  { intros d Ed. rewrite <- Ed. apply json_prints_get; [exact Hp | reflexivity]. }
  unfold monitor_body. rewrite !py_get_obj. lazy beta iota. unfold monitor_dispatch.
  destruct (monitor_select (get_or kvs "name" (JStr "unknown"))).
  4: { rewrite stdout_print_ok.
       - split; [discriminate | intros [H _]; contradiction H; reflexivity].
       - cbn [action_encodes]. apply get_or_encodes; [exact Hp | reflexivity]. }
  all: destruct (get_or kvs "data" (JObj [])) as [| | | | | | |d] eqn:Ed;
       rewrite ?py_get_obj; cbn [py_get]; lazy beta iota;
       [ split; [intros _; split; [discriminate | reflexivity] | intros _; reflexivity] .. | ].
  all: specialize (Pd d eq_refl);
       rewrite stdout_print_ok by (cbn [action_encodes];
         rewrite ?(get_or_encodes env d) by (exact Pd || reflexivity); reflexivity);
       split; [discriminate | intros [_ H]; discriminate H].
Qed.

Lemma monitor_body_raises_iff_witness :
  monitor_body cpython311 (JObj [("name", JStr "window_closed"); ("data", JInt 5)]) = None.
Proof.
  apply (proj2 (monitor_body_raises_iff cpython311
                  (JObj [("name", JStr "window_closed"); ("data", JInt 5)]) eq_refl)).
  split; [discriminate | reflexivity].
Defined.

(** X16. For an event whose strings [sys.stdout] can encode, the
    auto-tiler's statements raise exactly when the event is not an object, or
    when its name is "window_created" and its [data] value (when present) is
    not an object; events with any other name never raise. *)
Theorem auto_tile_body_raises_iff :
  forall env ev,
    json_prints env ev = true ->
    (auto_tile_body env ev = None <->
     match ev with
     | JObj kvs =>
         is_str (get_or kvs "name" JNull) "window_created" = true /\
         is_object (get_or kvs "data" (JObj [])) = false
     | _ => True
     end).
Proof.
  intros env ev Hp.
  destruct ev as [| | | | | | |kvs]; try (split; [intros _; exact I | intros _; reflexivity]).
  assert (Pd : forall d, get_or kvs "data" (JObj []) = JObj d -> json_prints env (JObj d) = true).
  { intros d Ed. rewrite <- Ed. apply json_prints_get; [exact Hp | reflexivity]. }
  unfold auto_tile_body. rewrite py_get_obj. lazy beta iota.
  destruct (is_str (get_or kvs "name" JNull) "window_created").
  - rewrite py_get_obj. lazy beta iota. unfold on_window_created.
    destruct (get_or kvs "data" (JObj [])) as [| | | | | | |d] eqn:Ed;
      rewrite ?py_get_obj; cbn [py_get]; lazy beta iota;
      [ split; [intros _; split; reflexivity | intros _; reflexivity] .. | ].
    specialize (Pd d eq_refl).
    rewrite stdout_print_ok by (cbn [action_encodes];
      rewrite ?(get_or_encodes env d) by (exact Pd || reflexivity); reflexivity).
    split; [discriminate | intros [_ H]; discriminate H].
  - split; [discriminate | intros [H _]; discriminate H].
Qed.

Lemma auto_tile_body_raises_iff_witness :
  auto_tile_body cpython311 (JObj [("name", JStr "window_created"); ("data", JArr [])]) = None.
Proof.
  apply (proj2 (auto_tile_body_raises_iff cpython311
                  (JObj [("name", JStr "window_created"); ("data", JArr [])]) eq_refl)).
  split; reflexivity.
Defined.

(** X17. Whatever the runtime, a line of more '[' than [json.loads] may nest
    ([RecursionError]), or an integer literal of more digits than
    [int_max_str_digits] when that limit is set ([ValueError]), ends a
    streaming session that reaches it: after what the earlier lines printed,
    the session prints 'Error: ...' and returns 1. *)
Theorem loads_errors_end_session :
  forall env (body : json -> option (list action)) prefix rest n,
    snd (event_loop env body prefix) = None ->
    ((max_depth env < n)%nat ->
     session env body true (prefix ++ Line (repeat_char "["%char n) :: rest) =
       (Banner :: fst (event_loop env body prefix) ++ [ErrorReport], Some 1%Z)) /\
    (int_max_str_digits env <> 0 -> (int_max_str_digits env < n)%nat ->
     session env body true (prefix ++ Line (repeat_char "1"%char n) :: rest) =
       (Banner :: fst (event_loop env body prefix) ++ [ErrorReport], Some 1%Z)).
Proof.
  intros env body prefix rest n Hp. split.
  - intros H. apply session_loads_raised; [exact Hp | exact (loads_brackets env n H)].
  - intros H0 H. apply session_loads_raised; [exact Hp | exact (loads_ones env n H0 H)].
Qed.

Lemma loads_errors_end_session_witness :
  monitor_windows cpython311 true
    [Line created_line; Line (repeat_char "["%char 995); Line created_line] =
    ([Banner; WindowCreated (JStr "Notes") (JInt 2); ErrorReport], Some 1%Z) /\
  auto_tile cpython311 true [Line (repeat_char "1"%char 4301)] =
    ([Banner; ErrorReport], Some 1%Z).
Proof.
  split.
  - exact (proj1 (loads_errors_end_session cpython311 (monitor_body cpython311)
                    [Line created_line] [Line created_line] 995 eq_refl)
                 (proj1 (Nat.ltb_lt 994 995) eq_refl)).
  - refine (proj2 (loads_errors_end_session cpython311 (auto_tile_body cpython311)
                     [] [] 4301 eq_refl) _ _).
    + discriminate.
    + exact (proj1 (Nat.ltb_lt 4300 4301) eq_refl).
Defined.
